(** * kuka_drivers: the FRI command channel and the RSI datagram server

    A shallow embedding of
    - [kuka_sunrise_fri_driver/src/connection_helpers/fri_connection.cpp]
      (class [FRIConnection]), and
    - [kuka_kss_rsi_driver/include/kuka_kss_rsi_driver/generic_udp_server.h]
      (class [UDPServer], declarations only),
    together with the properties of the network layer proved about them. *)

From Stdlib Require Import ZArith Strings.Byte.
From stdpp Require Import base decidable option list strings.

#[global] Instance byte_eq_decision : EqDecision byte := Byte.byte_eq_dec.

(** ** The command channel: [FRIConnection] *)
Module Fri.

(** The enumerators of [CommandState], [CommandID] and [CommandSuccess].
    All three enumerations have underlying type [std::uint8_t]; the
    numeric values are fixed by [fri_connection.hpp] and are kept abstract
    here: the channel only ever compares them. *)
Class Enumerators := {
  (* enum CommandState *)
  ACCEPTED : byte;
  REJECTED : byte;
  UNKNOWN : byte;
  ERROR_CONTROL_ENDED : byte;
  ERROR_FRI_ENDED : byte;
  (* enum CommandID *)
  CONNECT : byte;
  DISCONNECT : byte;
  START_FRI : byte;
  END_FRI : byte;
  ACTIVATE_CONTROL : byte;
  DEACTIVATE_CONTROL : byte;
  SET_FRI_CONFIG : byte;
  SET_CONTROL_MODE : byte;
  SET_COMMAND_MODE : byte;
  (* enum CommandSuccess *)
  SUCCESS : byte;
  NO_SUCCESS : byte;
  (* enum ControlModeID *)
  POSITION_CONTROL_MODE : byte
}.

(** The five labels of the [switch] in [handleReceivedTCPData] are case
    labels of one statement, hence pairwise different values. *)
Definition case_labels_distinct `{Enumerators} : Prop :=
  NoDup [ACCEPTED; REJECTED; UNKNOWN; ERROR_CONTROL_ENDED; ERROR_FRI_ENDED].

(** *** The reliable transport owned by the channel *)

(** Modelled from the spec: the class [TCPConnection] (tcp_connection.hpp)
    is the external "Reliable Transport" collaborator, which "opens/closes
    a point-to-point byte stream" and "exposes byte-send operations".  The
    object records what was written to the stream, one entry per call of
    [sendByte] or [sendBytes], and whether [closeConnection] ran. *)
Record TCPConnection := mkTCPConnection {
  server_addr : string;
  server_port : Z;
  outbox : list (list byte);
  closed : bool
}.

(** Modelled from the spec: the byte-send operations and the close of the
    transport, as records on the object. *)
Definition sendByte (b : byte) (c : TCPConnection) : TCPConnection :=
  mkTCPConnection (server_addr c) (server_port c) (outbox c ++ [[b]]) (closed c).

Definition sendBytes (msg : list byte) (c : TCPConnection) : TCPConnection :=
  mkTCPConnection (server_addr c) (server_port c) (outbox c ++ [msg]) (closed c).

Definition closeConnection (c : TCPConnection) : TCPConnection :=
  mkTCPConnection (server_addr c) (server_port c) (outbox c) true.

(** The two error handlers registered at construction. *)
Inductive ErrorHandler := handleControlEndedError_ | handleFRIEndedError_.

(** *** The object state

    The six data members the code reads and writes, followed by a record
    of the effects that leave the object: calls of [cv_.notify_one()],
    detached threads created with [pthread_create] (each runs the named
    handler once), transports destroyed by [reset()] or by assignment to
    the [unique_ptr], and constructor calls of [TCPConnection]. *)
Record FRIConnection := mkFRIConnection {
  tcp_connection_ : option TCPConnection;
  last_command_state_ : byte;
  last_command_id_ : byte;
  last_command_success_ : byte;
  answer_wanted_ : bool;
  answer_received_ : bool;
  notified : nat;
  detached : list ErrorHandler;
  destroyed : list TCPConnection;
  opened : list (string * Z)
}.

Definition set_tcp_connection_ (v : option TCPConnection) (s : FRIConnection) :=
  mkFRIConnection v (last_command_state_ s) (last_command_id_ s)
    (last_command_success_ s) (answer_wanted_ s) (answer_received_ s)
    (notified s) (detached s) (destroyed s) (opened s).

Definition set_last_command_state_ (v : byte) (s : FRIConnection) :=
  mkFRIConnection (tcp_connection_ s) v (last_command_id_ s)
    (last_command_success_ s) (answer_wanted_ s) (answer_received_ s)
    (notified s) (detached s) (destroyed s) (opened s).

Definition set_last_command_id_ (v : byte) (s : FRIConnection) :=
  mkFRIConnection (tcp_connection_ s) (last_command_state_ s) v
    (last_command_success_ s) (answer_wanted_ s) (answer_received_ s)
    (notified s) (detached s) (destroyed s) (opened s).

Definition set_last_command_success_ (v : byte) (s : FRIConnection) :=
  mkFRIConnection (tcp_connection_ s) (last_command_state_ s)
    (last_command_id_ s) v (answer_wanted_ s) (answer_received_ s)
    (notified s) (detached s) (destroyed s) (opened s).

Definition set_answer_wanted_ (v : bool) (s : FRIConnection) :=
  mkFRIConnection (tcp_connection_ s) (last_command_state_ s)
    (last_command_id_ s) (last_command_success_ s) v (answer_received_ s)
    (notified s) (detached s) (destroyed s) (opened s).

Definition set_answer_received_ (v : bool) (s : FRIConnection) :=
  mkFRIConnection (tcp_connection_ s) (last_command_state_ s)
    (last_command_id_ s) (last_command_success_ s) (answer_wanted_ s) v
    (notified s) (detached s) (destroyed s) (opened s).

(** [cv_.notify_one()] *)
Definition notify_one (s : FRIConnection) :=
  mkFRIConnection (tcp_connection_ s) (last_command_state_ s)
    (last_command_id_ s) (last_command_success_ s) (answer_wanted_ s)
    (answer_received_ s) (S (notified s)) (detached s) (destroyed s)
    (opened s).

(** [pthread_create(..., handler, this); pthread_detach(...)] *)
Definition pthread_create_detached (h : ErrorHandler) (s : FRIConnection) :=
  mkFRIConnection (tcp_connection_ s) (last_command_state_ s)
    (last_command_id_ s) (last_command_success_ s) (answer_wanted_ s)
    (answer_received_ s) (notified s) (detached s ++ [h]) (destroyed s)
    (opened s).

(** The old pointee of the [unique_ptr], if any, is destroyed. *)
Definition release (s : FRIConnection) : list TCPConnection :=
  match tcp_connection_ s with
  | Some old => destroyed s ++ [old]
  | None => destroyed s
  end.

(** [tcp_connection_.reset()] *)
Definition reset (s : FRIConnection) :=
  mkFRIConnection None (last_command_state_ s) (last_command_id_ s)
    (last_command_success_ s) (answer_wanted_ s) (answer_received_ s)
    (notified s) (detached s) (release s) (opened s).

(** [tcp_connection_ = std::move(fresh)] *)
Definition assign (fresh : TCPConnection) (s : FRIConnection) :=
  mkFRIConnection (Some fresh) (last_command_state_ s) (last_command_id_ s)
    (last_command_success_ s) (answer_wanted_ s) (answer_received_ s)
    (notified s) (detached s) (release s) (opened s).

(** The constructor [TCPConnection(server_addr, server_port, ...)] is
    entered. *)
Definition construct_attempt (addr : string) (port : Z) (s : FRIConnection) :=
  mkFRIConnection (tcp_connection_ s) (last_command_state_ s)
    (last_command_id_ s) (last_command_success_ s) (answer_wanted_ s)
    (answer_received_ s) (notified s) (detached s) (destroyed s)
    (opened s ++ [(addr, port)]).

(** *** Outcomes of running a member function

    A call returns, or stays suspended in [cv_.wait] for ever, or has
    undefined behaviour: [operator[]] of [std::vector] outside the vector,
    [operator->] of an empty [unique_ptr]. *)
Inductive fault :=
  | OutOfRange (index size : nat)
  | NullTransport.

Inductive run (A : Type) :=
  | Done (a : A)
  | Blocked (at_wait : FRIConnection)
  | Undefined (f : fault).
Arguments Done {A} a.
Arguments Blocked {A} at_wait.
Arguments Undefined {A} f.

#[global] Instance run_ret : MRet run := @Done.
#[global] Instance run_bind : MBind run := fun A B k m =>
  match m with
  | Done a => k a
  | Blocked s => Blocked s
  | Undefined f => Undefined f
  end.

(** [data[i]] on a [std::vector<std::uint8_t>] *)
Definition subscript (data : list byte) (i : nat) : run byte :=
  match data !! i with
  | Some b => Done b
  | None => Undefined (OutOfRange i (length data))
  end.

(** [tcp_connection_->m(...)] *)
Definition arrow (m : TCPConnection -> TCPConnection) (s : FRIConnection)
  : run FRIConnection :=
  match tcp_connection_ s with
  | Some c => Done (set_tcp_connection_ (Some (m c)) s)
  | None => Undefined NullTransport
  end.

Section Channel.
Context `{Enumerators}.

(** The constructor's member initialisers. *)
Definition FRIConnection_new : FRIConnection :=
  mkFRIConnection None ACCEPTED CONNECT NO_SUCCESS false false 0 [] [] [].

Definition isConnected (s : FRIConnection) : bool :=
  match tcp_connection_ s with
  | Some _ => true
  | None => false
  end.

Definition assertLastCommandSuccess (command_id : byte) (s : FRIConnection)
  : bool :=
  if bool_decide (last_command_state_ s = ACCEPTED)
     && bool_decide (last_command_id_ s = command_id)
     && bool_decide (last_command_success_ s = SUCCESS)
  then true
  else false.

(** [handleReceivedTCPData], run under the lock [m_] by the transport.
    The two size tests on the ACCEPTED and REJECTED paths guard an empty
    block in the source (a TODO comment), and execution goes on after
    them. *)
Definition handleReceivedTCPData (data : list byte) (self : FRIConnection)
  : run FRIConnection :=
  if decide (length data = 0) then Done self
  else
    tag ← subscript data 0;
    if decide (tag = ACCEPTED) then
      let self := if decide (length data < 3) then self else self in
      let self := set_last_command_state_ ACCEPTED self in
      id ← subscript data 1;
      let self := set_last_command_id_ id self in
      ok ← subscript data 2;
      let self := set_last_command_success_ ok self in
      let self := set_answer_received_ true self in
      Done (notify_one self)
    else if decide (tag = REJECTED) then
      let self := if decide (length data < 2) then self else self in
      let self := set_last_command_state_ REJECTED self in
      id ← subscript data 1;
      let self := set_last_command_id_ id self in
      let self := set_answer_received_ true self in
      Done (notify_one self)
    else if decide (tag = UNKNOWN) then
      let self := set_last_command_state_ UNKNOWN self in
      let self := set_answer_received_ true self in
      Done (notify_one self)
    else if decide (tag = ERROR_CONTROL_ENDED) then
      if answer_wanted_ self then
        let self := set_last_command_state_ ERROR_CONTROL_ENDED self in
        let self := set_answer_received_ true self in
        Done (notify_one self)
      else Done (pthread_create_detached handleControlEndedError_ self)
    else if decide (tag = ERROR_FRI_ENDED) then
      if answer_wanted_ self then
        let self := set_last_command_state_ ERROR_FRI_ENDED self in
        let self := set_answer_received_ true self in
        Done (notify_one self)
      else Done (pthread_create_detached handleFRIEndedError_ self)
    else
      let self := set_last_command_state_ UNKNOWN self in
      let self := set_answer_received_ true self in
      Done (notify_one self).

(** The chunks the transport hands to [handleReceivedTCPData] while the
    caller is inside [sendCommandAndWait], in order of arrival. *)
Fixpoint deliver (chunks : list (list byte)) (self : FRIConnection)
  : run FRIConnection :=
  match chunks with
  | [] => Done self
  | data :: rest => self ← handleReceivedTCPData data self; deliver rest self
  end.

(** [cv_.wait(lk, [this]{return answer_received_;})].  [delivered] are the
    chunks handled between the caller's [answer_wanted_ = true] and the
    moment it holds the lock again with the predicate true; the handler
    may well run several times before the caller is scheduled.  When the
    flag is still false after the last chunk that ever arrives, the caller
    stays suspended. *)
Definition wait (delivered : list (list byte)) (self : FRIConnection)
  : run FRIConnection :=
  self ← deliver delivered self;
  if answer_received_ self then Done self else Blocked self.

(** [sendCommandAndWait(CommandID)] *)
Definition sendCommandAndWait (command_id : byte)
    (delivered : list (list byte)) (self : FRIConnection)
  : run (bool * FRIConnection) :=
  let self := set_answer_wanted_ true self in
  self ← arrow (sendByte command_id) self;
  self ← wait delivered self;
  let self := set_answer_received_ false self in
  let self := set_answer_wanted_ false self in
  Done (assertLastCommandSuccess command_id self, self).

(** [sendCommandAndWait(CommandID, const std::vector<std::uint8_t> &)] *)
Definition sendCommandAndWait_data (command_id : byte)
    (command_data : list byte)
    (delivered : list (list byte)) (self : FRIConnection)
  : run (bool * FRIConnection) :=
  let msg := [] in
  let msg := msg ++ [command_id] in
  let msg := msg ++ command_data in
  let self := set_answer_wanted_ true self in
  self ← arrow (sendBytes msg) self;
  self ← wait delivered self;
  let self := set_answer_received_ false self in
  let self := set_answer_wanted_ false self in
  Done (assertLastCommandSuccess command_id self, self).

(** [connect].  [opens] tells whether the constructor of [TCPConnection]
    returns ([true]) or throws ([false]). *)
Definition connect (addr : string) (port : Z) (opens : bool)
    (delivered : list (list byte)) (self : FRIConnection)
  : run (bool * FRIConnection) :=
  let self := construct_attempt addr port self in
  let self :=
    if opens then assign (mkTCPConnection addr port [] false) self
    else reset self in
  if negb (isConnected self) then Done (false, self)
  else sendCommandAndWait CONNECT delivered self.

(** [disconnect] *)
Definition disconnect (delivered : list (list byte)) (self : FRIConnection)
  : run (bool * FRIConnection) :=
  match tcp_connection_ self with
  | None => Done (true, self)
  | Some _ =>
    r ← sendCommandAndWait DISCONNECT delivered self;
    if bool_decide (r.1 = true) then
      self ← arrow closeConnection r.2;
      let self := reset self in
      Done (true, self)
    else Done (false, r.2)
  end.

Definition startFRI := sendCommandAndWait START_FRI.
Definition endFRI := sendCommandAndWait END_FRI.
Definition activateControl := sendCommandAndWait ACTIVATE_CONTROL.
Definition deactivateControl := sendCommandAndWait DEACTIVATE_CONTROL.

Definition setPositionControlMode :=
  let command_data := [POSITION_CONTROL_MODE] in
  sendCommandAndWait_data SET_CONTROL_MODE command_data.

Definition setClientCommandMode (client_command_mode : byte) :=
  let command_data := [client_command_mode] in
  sendCommandAndWait_data SET_COMMAND_MODE command_data.

(** [connectionLostCallback]: the result of [connect] is discarded. *)
Definition connectionLostCallback (addr : string) (port : Z) (opens : bool)
    (delivered : list (list byte)) (self : FRIConnection)
  : run FRIConnection :=
  r ← connect addr port opens delivered self;
  Done r.2.

(** Everything written to any transport the channel has owned so far. *)
Definition transmitted (s : FRIConnection) : list (list byte) :=
  concat (map outbox (destroyed s))
  ++ match tcp_connection_ s with Some c => outbox c | None => [] end.

(** The outcome record says: accepted, for [command_id], with success. *)
Definition accepted_for (command_id : byte) (w : FRIConnection) : Prop :=
  last_command_state_ w = ACCEPTED
  /\ last_command_id_ w = command_id
  /\ last_command_success_ w = SUCCESS.

(** The caller's state once it has marked the channel as awaiting and
    written [msg] to the transport [c] it owns. *)
Definition submitted (msg : list byte) (c : TCPConnection)
    (self : FRIConnection) : FRIConnection :=
  set_tcp_connection_ (Some (sendBytes msg c)) (set_answer_wanted_ true self).

(** The wait of a call that wrote [msg] resolves, and [w] is the object
    state at that moment. *)
Definition wakes_in (msg : list byte) (delivered : list (list byte))
    (self w : FRIConnection) : Prop :=
  exists c, tcp_connection_ self = Some c
    /\ deliver delivered (submitted msg c self) = Done w
    /\ answer_received_ w = true.

(** The two ways a session-end chunk with tag [tag] is dealt with: as the
    outcome of the awaited command, or by a detached thread that runs
    [handler] while the outcome record and the flags stay as they are. *)
Definition taken_as_outcome (tag : byte) (self s' : FRIConnection) : Prop :=
  last_command_state_ s' = tag
  /\ answer_received_ s' = true
  /\ notified s' = S (notified self)
  /\ detached s' = detached self.

Definition handed_to (handler : ErrorHandler) (self s' : FRIConnection)
  : Prop :=
  last_command_state_ s' = last_command_state_ self
  /\ last_command_id_ s' = last_command_id_ self
  /\ last_command_success_ s' = last_command_success_ self
  /\ answer_received_ s' = answer_received_ self
  /\ notified s' = notified self
  /\ detached s' = detached self ++ [handler].

(** The channel once [connect] owns a fresh transport to the given
    address and port. *)
Definition reopened (addr : string) (port : Z) (self : FRIConnection)
  : FRIConnection :=
  assign (mkTCPConnection addr port [] false)
    (construct_attempt addr port self).

(** What the caller does after waking: both flags are cleared. *)
Definition cleared (w : FRIConnection) : FRIConnection :=
  set_answer_wanted_ false (set_answer_received_ false w).

End Channel.

(** A sample assignment of enumerator values, used to run the channel on
    concrete chunks. *)
Definition sample_enumerators : Enumerators := {|
  ACCEPTED := x01; REJECTED := x02; UNKNOWN := x03;
  ERROR_CONTROL_ENDED := x04; ERROR_FRI_ENDED := x05;
  CONNECT := x01; DISCONNECT := x02; START_FRI := x03; END_FRI := x04;
  ACTIVATE_CONTROL := x05; DEACTIVATE_CONTROL := x06;
  SET_FRI_CONFIG := x08; SET_CONTROL_MODE := x0a; SET_COMMAND_MODE := x0c;
  SUCCESS := x01; NO_SUCCESS := x02;
  POSITION_CONTROL_MODE := x01
|}.

(** A channel that owns an open transport to 10.0.0.1:30200. *)
Definition sample_open : FRIConnection :=
  assign (mkTCPConnection "10.0.0.1" 30200 [] false)
    (@FRIConnection_new sample_enumerators).

End Fri.

(** ** The datagram server: [UDPServer] *)
Module Udp.

(** [struct UDPServerData].  [p_data] stands for the bytes the pointer
    designates. *)
Record UDPServerData := mkUDPServerData {
  port_number : N;
  p_data : list byte;
  bytes_transferred : Z
}.

(** [static const size_t BUFFER_SIZE = 1024;] *)
Definition BUFFER_SIZE : nat := 1024.

(** [boost::asio::ip::udp::endpoint] *)
Record endpoint := mkEndpoint {
  address : string;
  port : N
}.

(** One datagram handed to the server by the network: whether the receive
    completes with an error code, who sent it, what it carries, and
    whether the send of the reply (if one is sent) completes with an
    error code. *)
Record arrival := mkArrival {
  receive_error : bool;
  peer : endpoint;
  payload : list byte;
  send_error : bool
}.

(** The data members of [class UDPServer] ([p_socket_] is represented by
    the two pending operations on it, [p_interface_] by the calls made
    through it), and what the server did: the argument of each call of
    [p_interface_->callback], and each reply given to the socket. *)
Record UDPServer := mkUDPServer {
  remote_endpoint_ : endpoint;
  receive_buffer_ : list byte;
  server_data_ : UDPServerData;
  initialized_ : bool;
  receive_armed : bool;
  send_pending : option (endpoint * list byte);
  callback_calls : list UDPServerData;
  replies : list (endpoint * list byte);
  send_failures : nat
}.

Section Server.
(** [AbstractUDPServerInterface::callback], the reply as bytes. *)
Variable callback : UDPServerData -> list byte.

(** Modelled from the spec: [UDPServer::startAsynchronousReceive] is only
    declared in the header; the spec's receive cycle, step 1: "Await a
    datagram asynchronously". *)
Definition startAsynchronousReceive (srv : UDPServer) : UDPServer :=
  mkUDPServer (remote_endpoint_ srv) (receive_buffer_ srv) (server_data_ srv)
    (initialized_ srv) true (send_pending srv) (callback_calls srv)
    (replies srv) (send_failures srv).

(** Modelled from the spec: the constructor is only declared in the
    header; "opens a datagram socket bound to bindPort.  Construction
    fails (server reports not-initialized) if the bind fails; the server
    object remains usable for inspection but performs no I/O.
    Immediately on successful construction, arms the first asynchronous
    receive."  [binds] tells whether the bind succeeds. *)
Definition UDPServer_new (port_number : N) (binds : bool) : UDPServer :=
  let srv :=
    mkUDPServer (mkEndpoint EmptyString 0) [] (mkUDPServerData port_number [] 0)
      binds false None [] [] 0 in
  if binds then startAsynchronousReceive srv else srv.

Definition isInitialized (srv : UDPServer) : bool := initialized_ srv.

(** Modelled from the spec: [UDPServer::receiveCallback] is only declared
    in the header; the spec's receive cycle, steps 2 and 3: "On arrival
    with no transport-level error: populate an Exchange Unit with the
    source peer's address, the received byte count, and a reference to the
    receive buffer; invoke the Callback Consumer synchronously to obtain
    the reply payload; asynchronously send the reply to the source peer's
    address; upon send completion, re-arm the receive.  On arrival with a
    transport-level error: do not invoke the callback; re-arm the
    receive". *)
Definition receiveCallback (error : bool) (bytes_transferred : nat)
    (srv : UDPServer) : UDPServer :=
  if error then startAsynchronousReceive srv
  else
    let data :=
      mkUDPServerData (port_number (server_data_ srv)) (receive_buffer_ srv)
        (Z.of_nat bytes_transferred) in
    let reply := callback data in
    mkUDPServer (remote_endpoint_ srv) (receive_buffer_ srv) data
      (initialized_ srv) (receive_armed srv)
      (Some (remote_endpoint_ srv, reply))
      (callback_calls srv ++ [data]) (replies srv) (send_failures srv).

(** Modelled from the spec: [UDPServer::sendCallback] is only declared in
    the header; the spec's receive cycle, step 4: "On send completion with
    a transport-level error: log/report only; still re-arm the receive". *)
Definition sendCallback (error : bool) (bytes_transferred : nat)
    (srv : UDPServer) : UDPServer :=
  let srv :=
    mkUDPServer (remote_endpoint_ srv) (receive_buffer_ srv)
      (server_data_ srv) (initialized_ srv) (receive_armed srv)
      (send_pending srv) (callback_calls srv) (replies srv)
      (if error then S (send_failures srv) else send_failures srv) in
  startAsynchronousReceive srv.

(** Modelled from the spec: the reactor ([boost::asio::io_service]) is an
    external collaborator.  A datagram completes the armed receive, if
    there is one, into [receive_buffer_] (at most [BUFFER_SIZE] bytes) and
    [remote_endpoint_], and the completion handler runs; a datagram that
    finds no receive armed is not seen by the server at all. *)
Definition complete_receive (a : arrival) (srv : UDPServer) : UDPServer :=
  let buffer := take BUFFER_SIZE (payload a) in
  let srv :=
    mkUDPServer (peer a) buffer (server_data_ srv) (initialized_ srv) false
      (send_pending srv) (callback_calls srv) (replies srv)
      (send_failures srv) in
  receiveCallback (receive_error a) (length buffer) srv.

(** Modelled from the spec: the reactor again.  The pending send, if
    there is one, is carried out, to the peer unless it fails, and its
    completion handler runs. *)
Definition complete_send (error : bool) (srv : UDPServer) : UDPServer :=
  match send_pending srv with
  | None => srv
  | Some (to, reply) =>
    let srv :=
      mkUDPServer (remote_endpoint_ srv) (receive_buffer_ srv)
        (server_data_ srv) (initialized_ srv) (receive_armed srv) None
        (callback_calls srv)
        (if error then replies srv else replies srv ++ [(to, reply)])
        (send_failures srv) in
    sendCallback error (if error then 0 else length reply) srv
  end.

(** Modelled from the spec: one receive-callback-send cycle, "one receive
    = one reply". *)
Definition arrive (a : arrival) (srv : UDPServer) : UDPServer :=
  if receive_armed srv
  then complete_send (send_error a) (complete_receive a srv)
  else srv.

(** The server after a sequence of arrivals. *)
Definition serve (arrivals : list arrival) (srv : UDPServer) : UDPServer :=
  foldl (fun srv a => arrive a srv) srv arrivals.

(** The arrivals whose receive completes without a transport error. *)
Definition well_formed (arrivals : list arrival) : list arrival :=
  filter (fun a => receive_error a = false) arrivals.

(** The server is in its receiving state: initialized, a receive armed,
    no send under way. *)
Definition receiving (srv : UDPServer) : Prop :=
  initialized_ srv = true
  /\ receive_armed srv = true
  /\ send_pending srv = None.

(** How many times the callback has been invoked so far. *)
Definition invocations (srv : UDPServer) : nat := length (callback_calls srv).

End Server.

(** Three datagrams, the second with a receive error, the third with a
    failing reply. *)
Definition sample_arrivals : list arrival :=
  [ mkArrival false (mkEndpoint "192.168.1.10" 49152) [x01; x02; x03] false;
    mkArrival true (mkEndpoint "192.168.1.10" 49152) [] false;
    mkArrival false (mkEndpoint "192.168.1.10" 49152) [x04] true ].

End Udp.

(** ** The command channel: the remaining member functions *)
Module FriRest.
Import Fri.

Section Rest.
Context `{Enumerators}.

(** The destructor: its body calls [disconnect()] and drops the result;
    after the body the members are destroyed, and with the [unique_ptr]
    the transport it still owns. *)
Definition FRIConnection_delete (delivered : list (list byte))
    (self : FRIConnection) : run FRIConnection :=
  r ← disconnect delivered self;
  Done (reset r.2).

(** A chunk that begins like an ACCEPTED or a REJECTED outcome and ends
    before the bytes such an outcome carries. *)
Definition short_outcome (data : list byte) : Prop :=
  (data !! 0 = Some ACCEPTED /\ length data < 3)
  \/ (data !! 0 = Some REJECTED /\ length data < 2).

(** What the receive path has done so far that is visible outside the
    outcome record: notifications and handler threads. *)
Definition effects (s : FRIConnection) : nat :=
  notified s + length (detached s).

(** A call that returned or is suspended in its wait has written exactly
    the message [msg], and nothing else, to the transports of the
    channel. *)
Definition writes (call : run (bool * FRIConnection)) (self : FRIConnection)
    (msg : list byte) : Prop :=
  forall s',
    (exists b, call = Done (b, s')) \/ call = Blocked s' ->
    transmitted s' = transmitted self ++ [msg].

(** The chunks that carry at least one byte. *)
Definition non_empty (chunks : list (list byte)) : list (list byte) :=
  filter (fun data => data <> []) chunks.

(** *** Commands with a serialized payload

    The mode identifier, the two headers and the two overloads of
    [kuka_drivers_core::serializeNext] are declared outside this file and
    taken as they are used: [serializeNext(value, serialized)] changes the
    vector and returns an [int].  [double] values are only handed on to
    [serializeNext]. *)
Variable double : Type.
Variable JOINT_IMPEDANCE_CONTROL_MODE : byte.
Variable CONTROL_MODE_HEADER : list byte.
Variable FRI_CONFIG_HEADER : list byte.
Variable serializeNext_double : double -> list byte -> Z * list byte.
Variable serializeNext_int : Z -> list byte -> Z * list byte.

(** [for (std::uint8_t byte : header) { serialized.emplace_back(byte);
    msg_size++; }] on the pair of [msg_size] and [serialized]. *)
Definition emplace_header (header : list byte) (st : Z * list byte)
  : Z * list byte :=
  foldl (fun st byte => ((st.1 + 1)%Z, st.2 ++ [byte])) st header.

(** [msg_size += serializeNext(value, serialized);] *)
Definition serialize_step {T : Type}
    (serializeNext : T -> list byte -> Z * list byte)
    (st : Z * list byte) (value : T) : Z * list byte :=
  let r := serializeNext value st.2 in
  ((st.1 + r.1)%Z, r.2).

(** The body of [setJointImpedanceControlMode] up to the call of
    [sendCommandAndWait]: [msg_size] and [serialized].  The calls of
    [printf] and of [reserve] leave both as they are. *)
Definition setJointImpedanceControlMode_serialized
    (joint_stiffness joint_damping : list double) : Z * list byte :=
  let st := (0%Z, []) in
  let st := ((st.1 + 1)%Z, st.2 ++ [JOINT_IMPEDANCE_CONTROL_MODE]) in
  let st := emplace_header CONTROL_MODE_HEADER st in
  let st := foldl (serialize_step serializeNext_double) st joint_stiffness in
  let st := foldl (serialize_step serializeNext_double) st joint_damping in
  st.

Definition setJointImpedanceControlMode
    (joint_stiffness joint_damping : list double) :=
  let serialized :=
    (setJointImpedanceControlMode_serialized joint_stiffness joint_damping).2 in
  sendCommandAndWait_data SET_CONTROL_MODE serialized.

(** The body of [setFRIConfig] up to the call of [sendCommandAndWait]. *)
Definition setFRIConfig_serialized
    (remote_port send_period_ms receive_multiplier : Z) : Z * list byte :=
  let st := (0%Z, []) in
  let st := emplace_header FRI_CONFIG_HEADER st in
  let st := serialize_step serializeNext_int st remote_port in
  let st := serialize_step serializeNext_int st send_period_ms in
  let st := serialize_step serializeNext_int st receive_multiplier in
  st.

Definition setFRIConfig
    (remote_port send_period_ms receive_multiplier : Z) :=
  let serialized :=
    (setFRIConfig_serialized remote_port send_period_ms receive_multiplier).2 in
  sendCommandAndWait_data SET_FRI_CONFIG serialized.

End Rest.

(** A serializer that appends four bytes per value, the low byte of the
    value last; enough to run the two commands above. *)
Definition sample_serializeNext (value : Z) (serialized : list byte)
  : Z * list byte :=
  (4%Z, serialized ++ [x00; x00; x00;
                       default x00 (Byte.of_N (Z.to_N (value mod 256)))]).

End FriRest.

(** ** Properties of the command channel *)
Import Fri.

Section ChannelFacts.
Context `{Enumerators}.

Ltac handler_cases data self :=
  unfold handleReceivedTCPData, subscript;
  destruct (decide (length data = 0)); cbn beta iota;
  [|destruct (data !! 0), (data !! 1), (data !! 2);
    cbn [mbind run_bind];
    repeat (case_decide; cbn [mbind run_bind]);
    try destruct (answer_wanted_ self) eqn:?;
    cbn beta iota zeta].

(** Settles the tests of the [switch]: keeps the branches whose tests are
    consistent with the hypotheses. *)
Ltac switch_branch :=
  repeat case_decide;
  try reflexivity;
  try (exfalso; first [done | lia | intuition congruence]).

Lemma handleReceivedTCPData_not_blocked data self w :
  handleReceivedTCPData data self <> Blocked w.
Proof. handler_cases data self; discriminate. Qed.

(** The receive handler touches the outcome record, the received flag and
    nothing else of the object: not the transport, not the awaiting flag. *)
Lemma handleReceivedTCPData_frame data self s' :
  handleReceivedTCPData data self = Done s' ->
  tcp_connection_ s' = tcp_connection_ self
  /\ destroyed s' = destroyed self
  /\ opened s' = opened self
  /\ answer_wanted_ s' = answer_wanted_ self.
Proof.
  handler_cases data self; try discriminate; intros [= <-]; cbn; auto.
Qed.

Lemma deliver_not_blocked delivered self w :
  deliver delivered self <> Blocked w.
Proof.
  revert self. induction delivered as [|data rest IH]; intros self; cbn.
  - discriminate.
  - destruct (handleReceivedTCPData data self) as [s1|s1|f] eqn:E;
      cbn [mbind run_bind].
    + apply IH.
    + now apply handleReceivedTCPData_not_blocked in E.
    + discriminate.
Qed.

Lemma deliver_frame delivered self s' :
  deliver delivered self = Done s' ->
  tcp_connection_ s' = tcp_connection_ self
  /\ destroyed s' = destroyed self
  /\ opened s' = opened self
  /\ answer_wanted_ s' = answer_wanted_ self.
Proof.
  revert self. induction delivered as [|data rest IH]; intros self; cbn.
  - intros [= <-]; done.
  - destruct (handleReceivedTCPData data self) as [s1| |] eqn:E;
      cbn [mbind run_bind]; try discriminate.
    intros Hd. apply IH in Hd. apply handleReceivedTCPData_frame in E.
    intuition congruence.
Qed.

Lemma assertLastCommandSuccess_true command_id s :
  assertLastCommandSuccess command_id s = true <-> accepted_for command_id s.
Proof.
  unfold assertLastCommandSuccess, accepted_for.
  repeat case_bool_decide; cbn; intuition congruence.
Qed.

Lemma assertLastCommandSuccess_false command_id s :
  assertLastCommandSuccess command_id s = false <-> ~ accepted_for command_id s.
Proof.
  rewrite <- assertLastCommandSuccess_true.
  destruct (assertLastCommandSuccess command_id s); intuition congruence.
Qed.

Lemma assertLastCommandSuccess_cleared command_id w :
  assertLastCommandSuccess command_id (cleared w)
  = assertLastCommandSuccess command_id w.
Proof. reflexivity. Qed.

(** A call that wrote [msg] returns exactly when its wait resolves, and
    then with the verdict of [assertLastCommandSuccess] on the outcome
    record of that moment. *)
Lemma sendCommandAndWait_data_returns command_id command_data delivered self r :
  sendCommandAndWait_data command_id command_data delivered self = Done r
  <-> exists w, wakes_in (command_id :: command_data) delivered self w
        /\ r = (assertLastCommandSuccess command_id w, cleared w).
Proof.
  unfold sendCommandAndWait_data, wakes_in, arrow, wait, submitted. cbn.
  destruct (tcp_connection_ self) as [c|]; cbn [mbind run_bind].
  - destruct (deliver delivered _) as [w|w|f] eqn:E; cbn [mbind run_bind].
    + destruct (answer_received_ w) eqn:R; cbn [mbind run_bind].
      * split.
        -- intros [= <-]. exists w. split; [exists c; auto|done].
        -- intros (w' & (c' & [= <-] & Hd & _) & ->).
           rewrite E in Hd. by injection Hd as <-.
      * split; [discriminate|].
        intros (w' & (c' & [= <-] & Hd & Hr) & _).
        rewrite E in Hd. injection Hd as <-. congruence.
    + split; [discriminate|].
      intros (w' & (c' & [= <-] & Hd & _) & _). congruence.
    + split; [discriminate|].
      intros (w' & (c' & [= <-] & Hd & _) & _). congruence.
  - split; [discriminate|]. intros (w & (c & Hc & _) & _). discriminate.
Qed.

Lemma sendCommandAndWait_as_data command_id delivered self :
  sendCommandAndWait command_id delivered self
  = sendCommandAndWait_data command_id [] delivered self.
Proof. reflexivity. Qed.

Lemma sendCommandAndWait_returns command_id delivered self r :
  sendCommandAndWait command_id delivered self = Done r
  <-> exists w, wakes_in [command_id] delivered self w
        /\ r = (assertLastCommandSuccess command_id w, cleared w).
Proof.
  rewrite sendCommandAndWait_as_data. apply sendCommandAndWait_data_returns.
Qed.

(** A call that stays suspended has written its message and handled every
    chunk without the received flag ending up set. *)
Lemma sendCommandAndWait_blocked command_id delivered self w :
  sendCommandAndWait command_id delivered self = Blocked w
  <-> exists c, tcp_connection_ self = Some c
        /\ deliver delivered (submitted [command_id] c self) = Done w
        /\ answer_received_ w = false.
Proof.
  rewrite sendCommandAndWait_as_data.
  unfold sendCommandAndWait_data, arrow, wait, submitted. cbn.
  destruct (tcp_connection_ self) as [c|]; cbn [mbind run_bind].
  - destruct (deliver delivered _) as [w'|w'|f] eqn:E; cbn [mbind run_bind].
    + destruct (answer_received_ w') eqn:R; cbn [mbind run_bind].
      * split; [discriminate|].
        intros (c' & [= <-] & Hd & Hr). rewrite E in Hd. injection Hd as <-.
        congruence.
      * split.
        -- intros [= <-]. exists c. auto.
        -- intros (c' & [= <-] & Hd & _). rewrite E in Hd. by injection Hd as <-.
    + by apply deliver_not_blocked in E.
    + split; [discriminate|]. intros (c' & [= <-] & Hd & _). congruence.
  - split; [discriminate|]. intros (c & Hc & _). discriminate.
Qed.

Lemma case_labels_distinct_ne :
  case_labels_distinct ->
  ACCEPTED <> REJECTED /\ ACCEPTED <> UNKNOWN
  /\ ACCEPTED <> ERROR_CONTROL_ENDED /\ ACCEPTED <> ERROR_FRI_ENDED
  /\ REJECTED <> UNKNOWN /\ REJECTED <> ERROR_CONTROL_ENDED
  /\ REJECTED <> ERROR_FRI_ENDED /\ UNKNOWN <> ERROR_CONTROL_ENDED
  /\ UNKNOWN <> ERROR_FRI_ENDED /\ ERROR_CONTROL_ENDED <> ERROR_FRI_ENDED.
Proof.
  unfold case_labels_distinct. rewrite !NoDup_cons, !not_elem_of_cons.
  intuition.
Qed.

(** C1.  For every command identifier, sent with or without payload:
    when the wait resolves, [sendCommandAndWait] returns, and it returns
    true if and only if the outcome record of that moment holds state
    ACCEPTED, the identifier of the command sent and the success flag
    SUCCESS; with any other state, identifier or flag it returns false. *)
Theorem sendCommandAndWait_true_iff_accepted
    command_id command_data delivered self :
  (forall w, wakes_in [command_id] delivered self w ->
     exists b,
       sendCommandAndWait command_id delivered self = Done (b, cleared w)
       /\ (b = true <-> accepted_for command_id w)
       /\ (b = false <-> ~ accepted_for command_id w))
  /\ (forall w, wakes_in (command_id :: command_data) delivered self w ->
     exists b,
       sendCommandAndWait_data command_id command_data delivered self
         = Done (b, cleared w)
       /\ (b = true <-> accepted_for command_id w)
       /\ (b = false <-> ~ accepted_for command_id w)).
Proof.
  split; intros w Hw; exists (assertLastCommandSuccess command_id w);
    (split; [|split;
       [apply assertLastCommandSuccess_true
       |apply assertLastCommandSuccess_false]]).
  - apply sendCommandAndWait_returns. eauto.
  - apply sendCommandAndWait_data_returns. eauto.
Qed.

(** C2 (what the code does instead).  A chunk that starts with the
    ACCEPTED tag and has fewer than three bytes, or starts with the
    REJECTED tag and has fewer than two, makes the receive handler read
    the chunk at an index that is not below its size, which is undefined
    behaviour of the handler. *)
Theorem short_outcome_chunk_read_out_of_range data self :
  case_labels_distinct ->
  (data !! 0 = Some ACCEPTED /\ length data < 3)
  \/ (data !! 0 = Some REJECTED /\ length data < 2) ->
  exists i,
    length data <= i
    /\ handleReceivedTCPData data self
       = Undefined (OutOfRange i (length data)).
Proof.
  intros Hd Hshort. apply case_labels_distinct_ne in Hd.
  destruct Hshort as [[Ht Hl]|[Ht Hl]].
  - destruct data as [|d0 [|d1 [|d2 rest]]]; cbn in Ht, Hl;
      try discriminate; try lia; injection Ht as ->;
      [exists 1|exists 2]; (split; [cbn; lia|]);
      unfold handleReceivedTCPData, subscript; cbn;
      switch_branch.
  - destruct data as [|d0 [|d1 rest]]; cbn in Ht, Hl;
      try discriminate; try lia; injection Ht as ->.
    exists 1. split; [cbn; lia|].
    unfold handleReceivedTCPData, subscript; cbn.
    switch_branch.
Qed.

(** C3.  A chunk that carries the ERROR_CONTROL_ENDED or ERROR_FRI_ENDED
    tag: while the channel awaits an outcome, the handler records that
    state as the outcome, sets the received flag, notifies once and
    starts no error handler; while it does not, the handler leaves the
    outcome record and the received flag alone, notifies nobody, and
    starts exactly one detached thread, which runs the control-ended
    handler for the first tag and the FRI-ended handler for the second. *)
Theorem session_end_chunk_dispatch rest self :
  case_labels_distinct ->
  (exists s',
     handleReceivedTCPData (ERROR_CONTROL_ENDED :: rest) self = Done s'
     /\ if answer_wanted_ self
        then taken_as_outcome ERROR_CONTROL_ENDED self s'
        else handed_to handleControlEndedError_ self s')
  /\ (exists s',
     handleReceivedTCPData (ERROR_FRI_ENDED :: rest) self = Done s'
     /\ if answer_wanted_ self
        then taken_as_outcome ERROR_FRI_ENDED self s'
        else handed_to handleFRIEndedError_ self s').
Proof.
  intros Hd. apply case_labels_distinct_ne in Hd.
  unfold handleReceivedTCPData, subscript, taken_as_outcome, handed_to.
  split; cbn; switch_branch;
    destruct (answer_wanted_ self); eexists; (split; [reflexivity|]);
    cbn; auto 10.
Qed.

(** C8 (as the code has it).  A non-empty chunk whose first byte is none
    of the five outcome tags is recorded as UNKNOWN, with the received
    flag set and one notification; an empty chunk is ignored: the handler
    returns at once and the object is as before. *)
Theorem unrecognized_chunk_recorded_empty_chunk_ignored tag rest self :
  tag ∉ [ACCEPTED; REJECTED; UNKNOWN; ERROR_CONTROL_ENDED; ERROR_FRI_ENDED] ->
  (exists s',
     handleReceivedTCPData (tag :: rest) self = Done s'
     /\ taken_as_outcome UNKNOWN self s')
  /\ handleReceivedTCPData [] self = Done self.
Proof.
  rewrite !not_elem_of_cons. intros Ht. split; [|reflexivity].
  unfold handleReceivedTCPData, subscript, taken_as_outcome. cbn.
  switch_branch; eexists; (split; [reflexivity|]); cbn; auto.
Qed.

(** C4 (as the code has it).  [sendCommandAndWait] never reads the
    awaiting flag: a call that starts with the flag set runs exactly as
    the same call on a channel with the flag clear, it transmits and
    waits; whenever a call returns, it leaves the flag clear. *)
Theorem sendCommandAndWait_ignores_awaiting_flag
    command_id command_data delivered self flag :
  sendCommandAndWait command_id delivered (set_answer_wanted_ flag self)
    = sendCommandAndWait command_id delivered self
  /\ sendCommandAndWait_data command_id command_data delivered
       (set_answer_wanted_ flag self)
    = sendCommandAndWait_data command_id command_data delivered self
  /\ (forall r, sendCommandAndWait command_id delivered self = Done r ->
       answer_wanted_ r.2 = false)
  /\ (forall r,
       sendCommandAndWait_data command_id command_data delivered self = Done r ->
       answer_wanted_ r.2 = false).
Proof.
  split; [reflexivity|]. split; [reflexivity|].
  split; intros r Hr.
  - apply sendCommandAndWait_returns in Hr as (w & _ & ->). reflexivity.
  - apply sendCommandAndWait_data_returns in Hr as (w & _ & ->). reflexivity.
Qed.

Lemma wakes_in_frame msg delivered self w :
  wakes_in msg delivered self w ->
  exists c, tcp_connection_ self = Some c
    /\ tcp_connection_ w = Some (sendBytes msg c)
    /\ destroyed w = destroyed self
    /\ opened w = opened self.
Proof.
  intros (c & Hc & Hd & _). exists c. split; [done|].
  apply deliver_frame in Hd as (-> & -> & -> & _). done.
Qed.

(** C6.  [disconnect] on a channel without transport returns true and
    leaves the object as it is, so nothing is transmitted.  On a channel
    with a transport it writes DISCONNECT to it and waits; when the wait
    resolves with ACCEPTED, DISCONNECT, SUCCESS it closes the transport,
    releases it and returns true; when it resolves otherwise it returns
    false and still owns the transport, which has not been closed. *)
Theorem disconnect_outcomes delivered self :
  (tcp_connection_ self = None ->
     disconnect delivered self = Done (true, self))
  /\ (forall c w,
       tcp_connection_ self = Some c ->
       deliver delivered (submitted [DISCONNECT] c self) = Done w ->
       answer_received_ w = true ->
       exists b s',
         disconnect delivered self = Done (b, s')
         /\ (accepted_for DISCONNECT w ->
              b = true
              /\ tcp_connection_ s' = None
              /\ destroyed s'
                 = destroyed self ++ [closeConnection (sendByte DISCONNECT c)])
         /\ (~ accepted_for DISCONNECT w ->
              b = false
              /\ tcp_connection_ s' = Some (sendByte DISCONNECT c)
              /\ closed (sendByte DISCONNECT c) = closed c
              /\ destroyed s' = destroyed self)).
Proof.
  split.
  - intros Hc. unfold disconnect. by rewrite Hc.
  - intros c w Hc Hd Hr.
    assert (Hw : wakes_in [DISCONNECT] delivered self w) by (exists c; auto).
    pose proof (proj2 (sendCommandAndWait_returns DISCONNECT delivered self _)
                  (ex_intro _ w (conj Hw eq_refl))) as Hs.
    apply wakes_in_frame in Hw as (c' & Hc' & Htcp & Hdes & _).
    rewrite Hc in Hc'. injection Hc' as <-.
    unfold disconnect. rewrite Hc, Hs. cbn [mbind run_bind fst snd].
    destruct (assertLastCommandSuccess DISCONNECT w) eqn:Ha.
    + rewrite bool_decide_eq_true_2 by done.
      unfold arrow. cbn [cleared tcp_connection_ set_answer_wanted_
        set_answer_received_]. rewrite Htcp. cbn [mbind run_bind].
      do 2 eexists. split; [reflexivity|]. split.
      * intros _. cbn. unfold release. cbn. by rewrite Hdes.
      * intros Hn. apply assertLastCommandSuccess_true in Ha. tauto.
    + rewrite bool_decide_eq_false_2 by done.
      do 2 eexists. split; [reflexivity|]. split.
      * intros Hy. apply assertLastCommandSuccess_true in Hy. congruence.
      * intros _. cbn. auto.
Qed.

Lemma transmitted_reset s : transmitted (reset s) = transmitted s.
Proof.
  unfold transmitted, reset, release. cbn.
  destruct (tcp_connection_ s) as [c|]; [|done].
  rewrite map_app, concat_app. cbn. by rewrite !app_nil_r.
Qed.

(** C7.  When the transport cannot be opened, [connect] returns false,
    the channel owns no transport and nothing has been transmitted.  When
    it can, [connect] is the exchange of CONNECT over the fresh transport:
    it returns as soon as that wait resolves, and it returns true only if
    the wait resolved with ACCEPTED, CONNECT, SUCCESS. *)
Theorem connect_open_failure_and_success addr port delivered self :
  (exists s',
     connect addr port false delivered self = Done (false, s')
     /\ tcp_connection_ s' = None
     /\ transmitted s' = transmitted self)
  /\ (forall w,
       wakes_in [CONNECT] delivered (reopened addr port self) w ->
       exists b s',
         connect addr port true delivered self = Done (b, s')
         /\ (b = true <-> accepted_for CONNECT w)
         /\ tcp_connection_ s'
            = Some (mkTCPConnection addr port [[CONNECT]] false))
  /\ (forall s',
       connect addr port true delivered self = Done (true, s') ->
       exists w,
         wakes_in [CONNECT] delivered (reopened addr port self) w
         /\ accepted_for CONNECT w).
Proof.
  split; [|split].
  - eexists. split; [reflexivity|]. split; [reflexivity|].
    by rewrite transmitted_reset.
  - intros w Hw.
    pose proof (proj2 (sendCommandAndWait_returns CONNECT delivered _ _)
                  (ex_intro _ w (conj Hw eq_refl))) as Hs.
    apply wakes_in_frame in Hw as (c & [= <-] & Htcp & _).
    exists (assertLastCommandSuccess CONNECT w), (cleared w).
    split; [exact Hs|]. split; [apply assertLastCommandSuccess_true|].
    exact Htcp.
  - intros s' Hs.
    change (connect addr port true delivered self)
      with (sendCommandAndWait CONNECT delivered (reopened addr port self))
      in Hs.
    apply sendCommandAndWait_returns in Hs as (w & Hw & [= Hb _]).
    exists w. split; [done|]. by apply assertLastCommandSuccess_true.
Qed.

Lemma connect_opened addr port opens delivered self r :
  connect addr port opens delivered self = Done r ->
  opened r.2 = opened self ++ [(addr, port)].
Proof.
  destruct opens.
  - change (connect addr port true delivered self)
      with (sendCommandAndWait CONNECT delivered (reopened addr port self)).
    intros Hs.
    apply sendCommandAndWait_returns in Hs as (w & Hw & ->).
    apply wakes_in_frame in Hw as (c & _ & _ & _ & Ho). cbn. by rewrite Ho.
  - by intros [= <-].
Qed.

Lemma connect_blocked_opened addr port opens delivered self w :
  connect addr port opens delivered self = Blocked w ->
  opened w = opened self ++ [(addr, port)].
Proof.
  destruct opens; [|discriminate].
  change (connect addr port true delivered self)
    with (sendCommandAndWait CONNECT delivered (reopened addr port self)).
  intros Hs. apply sendCommandAndWait_blocked in Hs as (c & _ & Hd & _).
  by apply deliver_frame in Hd as (_ & _ & -> & _).
Qed.

(** C9.  [connectionLostCallback] runs [connect] once, with the address
    and port it was given, and nothing after it: whatever [connect]
    returns, true or false, the callback returns with the object as
    [connect] left it.  In every run the constructor of the transport has
    been entered exactly once more, with that address and port; when the
    open fails, the callback returns with no transport and no further
    attempt. *)
Theorem connectionLostCallback_single_attempt addr port opens delivered self :
  (forall b s',
     connect addr port opens delivered self = Done (b, s') ->
     connectionLostCallback addr port opens delivered self = Done s')
  /\ (forall s',
       connectionLostCallback addr port opens delivered self = Done s'
       \/ connectionLostCallback addr port opens delivered self = Blocked s' ->
       opened s' = opened self ++ [(addr, port)])
  /\ (exists s',
       connectionLostCallback addr port false delivered self = Done s'
       /\ tcp_connection_ s' = None
       /\ opened s' = opened self ++ [(addr, port)]).
Proof.
  split; [|split].
  - intros b s' Hc. unfold connectionLostCallback. by rewrite Hc.
  - intros s'. unfold connectionLostCallback.
    destruct (connect addr port opens delivered self) as [r|w|f] eqn:Hc;
      cbn [mbind run_bind]; intros [[= <-]|[= <-]].
    + by apply connect_opened in Hc.
    + by apply connect_blocked_opened in Hc.
  - eexists. split; [reflexivity|]. split; reflexivity.
Qed.

(** C10.  [connect] on a channel that already owns a transport goes
    ahead: the transport it owned is destroyed as it was, nothing more
    having been written to it (no DISCONNECT), a fresh transport to the
    given address and port takes its place, and CONNECT is written to the
    fresh one; the call returns once the wait resolves, true exactly for
    ACCEPTED, CONNECT, SUCCESS. *)
Theorem connect_replaces_owned_transport addr port delivered self old w :
  tcp_connection_ self = Some old ->
  wakes_in [CONNECT] delivered (reopened addr port self) w ->
  exists b s',
    connect addr port true delivered self = Done (b, s')
    /\ (b = true <-> accepted_for CONNECT w)
    /\ tcp_connection_ s' = Some (mkTCPConnection addr port [[CONNECT]] false)
    /\ destroyed s' = destroyed self ++ [old]
    /\ transmitted s' = transmitted self ++ [[CONNECT]].
Proof.
  intros Hold Hw.
  pose proof (proj2 (sendCommandAndWait_returns CONNECT delivered _ _)
                (ex_intro _ w (conj Hw eq_refl))) as Hs.
  apply wakes_in_frame in Hw as (c & [= <-] & Htcp & Hdes & _).
  exists (assertLastCommandSuccess CONNECT w), (cleared w).
  split; [exact Hs|]. split; [apply assertLastCommandSuccess_true|].
  split; [exact Htcp|].
  assert (Hd : destroyed (cleared w) = destroyed self ++ [old]).
  { cbn. rewrite Hdes. cbn. unfold release. cbn. by rewrite Hold. }
  split; [exact Hd|].
  unfold transmitted. rewrite Hd. cbn [cleared tcp_connection_
    set_answer_wanted_ set_answer_received_]. rewrite Htcp, Hold.
  rewrite map_app, concat_app. cbn. by rewrite !app_nil_r.
Qed.

End ChannelFacts.

(** ** Properties of the datagram server *)
Import Udp.

Section ServerFacts.
Variable callback : UDPServerData -> list byte.

Lemma arrive_receiving a srv :
  receiving srv ->
  receiving (arrive callback a srv)
  /\ invocations (arrive callback a srv)
     = invocations srv + (if receive_error a then 0 else 1).
Proof.
  intros (Hi & Ha & Hp). unfold arrive. rewrite Ha.
  unfold complete_receive, receiveCallback, invocations.
  destruct (receive_error a); cbn.
  - unfold complete_send, receiving. cbn. rewrite Hp. cbn. split; [auto|lia].
  - unfold complete_send, sendCallback, receiving. cbn.
    rewrite length_app. cbn. auto.
Qed.

Lemma serve_receiving arrivals srv :
  receiving srv ->
  receiving (serve callback arrivals srv)
  /\ invocations (serve callback arrivals srv)
     = invocations srv + length (well_formed arrivals).
Proof.
  revert srv. induction arrivals as [|a rest IH]; intros srv Hr.
  - cbn. split; [done|lia].
  - destruct (arrive_receiving a srv Hr) as [Hr' Hn].
    destruct (IH _ Hr') as [Hr'' Hn'].
    change (serve callback (a :: rest) srv)
      with (serve callback rest (arrive callback a srv)).
    split; [exact Hr''|].
    rewrite Hn', Hn. unfold well_formed. rewrite filter_cons.
    destruct (receive_error a).
    + rewrite decide_False by done. lia.
    + rewrite decide_True by done. cbn. lia.
Qed.

(** C5.  A server whose bind succeeded starts in the receiving state.
    From the receiving state, after any sequence of arrivals the callback
    has been invoked once for each arrival without transport error and
    not at all for the others, and the server is in the receiving state
    again; this holds arrival by arrival: the k-th arrival finds the
    receive armed whatever came before it, and adds one invocation if it
    has no error and none if it has. *)
Theorem datagram_server_callbacks_and_rearm port_number arrivals srv :
  receiving srv ->
  receiving (UDPServer_new port_number true)
  /\ receiving (serve callback arrivals srv)
  /\ invocations (serve callback arrivals srv)
     = invocations srv + length (well_formed arrivals)
  /\ (forall k a, arrivals !! k = Some a ->
       receiving (serve callback (take k arrivals) srv)
       /\ receiving (serve callback (take (S k) arrivals) srv)
       /\ invocations (serve callback (take (S k) arrivals) srv)
          = invocations (serve callback (take k arrivals) srv)
            + (if receive_error a then 0 else 1)).
Proof.
  intros Hr. split; [by unfold receiving|].
  destruct (serve_receiving arrivals srv Hr) as [Hr' Hn].
  split; [exact Hr'|]. split; [exact Hn|].
  intros k a Hk.
  destruct (serve_receiving (take k arrivals) srv Hr) as [Hk' _].
  split; [exact Hk'|].
  rewrite (take_S_r _ _ _ Hk). unfold serve. rewrite foldl_app. cbn.
  apply arrive_receiving. exact Hk'.
Qed.

End ServerFacts.

(** ** Further properties of the command channel *)
Import FriRest.

Section ReceivePath.
Context `{Enumerators}.

Ltac handler_split data self :=
  unfold handleReceivedTCPData, subscript;
  destruct data as [|d0 [|d1 [|d2 rest]]]; cbn;
  repeat case_decide; try destruct (answer_wanted_ self) eqn:?;
  cbn beta iota zeta.

(** What one run of the handler does, read off its branches: nothing on an
    empty chunk; otherwise either it sets the received flag and notifies
    once, or, only while no answer is wanted, it starts one handler thread
    and leaves record and flags alone. *)
Lemma handler_effect data self s' :
  handleReceivedTCPData data self = Done s' ->
  (data = [] /\ s' = self)
  \/ (data <> []
      /\ answer_received_ s' = true
      /\ notified s' = S (notified self)
      /\ detached s' = detached self)
  \/ (data <> []
      /\ answer_wanted_ self = false
      /\ answer_received_ s' = answer_received_ self
      /\ notified s' = notified self
      /\ exists h, detached s' = detached self ++ [h]).
Proof.
  handler_split data self; try discriminate; intros [= <-];
    first [ left; done
          | right; left; done
          | right; right; cbn; repeat split; eauto; done ].
Qed.

Lemma handler_fault_out_of_range data self f :
  handleReceivedTCPData data self = Undefined f ->
  exists i, f = OutOfRange i (length data) /\ length data <= i.
Proof.
  handler_split data self; try discriminate; intros [= <-];
    eexists; (split; [reflexivity|cbn; lia]).
Qed.

Lemma handler_done_not_short data self :
  ~ short_outcome data -> exists s', handleReceivedTCPData data self = Done s'.
Proof.
  unfold short_outcome. intros Hn.
  handler_split data self; eauto;
    exfalso; apply Hn; cbn; first [left; split; [congruence|lia]
                                  |right; split; [congruence|lia]].
Qed.

Lemma deliver_app pre post self :
  deliver (pre ++ post) self = deliver pre self ≫= deliver post.
Proof.
  revert self. induction pre as [|data pre IH]; intros self; cbn; [done|].
  destruct (handleReceivedTCPData data self); cbn; auto.
Qed.

Lemma deliver_done_not_short chunks self :
  Forall (fun data => ~ short_outcome data) chunks ->
  exists s', deliver chunks self = Done s'.
Proof.
  intros Hall. revert self.
  induction Hall as [|data rest Hd _ IH]; intros self; cbn; [eauto|].
  destruct (handler_done_not_short data self Hd) as [s1 ->]. cbn. apply IH.
Qed.

Lemma deliver_empty_chunks chunks self :
  Forall (fun data => data = []) chunks -> deliver chunks self = Done self.
Proof.
  induction 1 as [|data rest -> _ IH]; cbn; [done|exact IH].
Qed.

(** X1.  The receive handler has undefined behaviour on exactly the
    chunks that begin with the ACCEPTED tag and have fewer than three
    bytes or begin with the REJECTED tag and have fewer than two; the
    fault is always a read at an index not below the chunk's size.  On
    every other chunk it completes. *)
Theorem handler_undefined_iff_short data self :
  case_labels_distinct ->
  (short_outcome data <->
     exists i, length data <= i
       /\ handleReceivedTCPData data self
          = Undefined (OutOfRange i (length data)))
  /\ (~ short_outcome data <->
       exists s', handleReceivedTCPData data self = Done s').
Proof.
  intros Hd. apply case_labels_distinct_ne in Hd.
  assert (Hshort : short_outcome data ->
            exists i, length data <= i
              /\ handleReceivedTCPData data self
                 = Undefined (OutOfRange i (length data))).
  { unfold short_outcome.
    intros [[Ht Hl]|[Ht Hl]];
      destruct data as [|d0 [|d1 [|d2 rest]]]; cbn in Ht, Hl;
      try discriminate; try lia; injection Ht as ->;
      unfold handleReceivedTCPData, subscript; cbn;
      repeat case_decide;
      try (exfalso; first [done | lia | intuition congruence]);
      eexists; (split; [|reflexivity]); cbn; lia. }
  split; split.
  - exact Hshort.
  - intros (i & _ & Hu).
    unfold short_outcome.
    destruct (decide ((data !! 0 = Some ACCEPTED /\ length data < 3)
                      \/ (data !! 0 = Some REJECTED /\ length data < 2)))
      as [Hs|Hs]; [exact Hs|].
    destruct (handler_done_not_short data self Hs) as [s' Hs'].
    congruence.
  - apply handler_done_not_short.
  - intros [s' Hs'] Hs. destruct (Hshort Hs) as (i & _ & Hu). congruence.
Qed.

(** X2.  Over any sequence of chunks the handler completes on, every
    chunk with at least one byte causes exactly one effect, a
    notification or a handler thread, and an empty chunk causes none:
    notifications plus threads grow by the number of non-empty chunks. *)
Theorem one_effect_per_non_empty_chunk chunks self s' :
  deliver chunks self = Done s' ->
  effects s' = effects self + length (non_empty chunks).
Proof.
  revert self. induction chunks as [|data rest IH]; intros self;
    cbn [deliver].
  - intros [= <-]. cbn. lia.
  - destruct (handleReceivedTCPData data self) as [s1| |] eqn:E;
      cbn [mbind run_bind]; try discriminate.
    intros Hd. apply IH in Hd. rewrite Hd. unfold non_empty.
    rewrite filter_cons. unfold effects.
    destruct (handler_effect _ _ _ E)
      as [[-> ->]|[(Hn & _ & Hnot & Hdet)|(Hn & _ & _ & Hnot & h & Hdet)]].
    + rewrite decide_False by (intros Hx; by apply Hx). lia.
    + rewrite decide_True by done. rewrite Hnot, Hdet. cbn. lia.
    + rewrite decide_True by done. rewrite Hnot, Hdet, length_app. cbn. lia.
Qed.

Lemma deliver_transmitted chunks self s' :
  deliver chunks self = Done s' -> transmitted s' = transmitted self.
Proof.
  intros Hd. apply deliver_frame in Hd as (Ht & Hdes & _).
  unfold transmitted. by rewrite Ht, Hdes.
Qed.

(** X3.  The receive path never touches the transport side of the
    channel: over any sequence of chunks it leaves the owned transport,
    what was transmitted, the destroyed transports, the constructor calls
    and the awaiting flag as they were. *)
Theorem receive_path_leaves_transport_alone chunks self s' :
  deliver chunks self = Done s' ->
  tcp_connection_ s' = tcp_connection_ self
  /\ transmitted s' = transmitted self
  /\ isConnected s' = isConnected self
  /\ destroyed s' = destroyed self
  /\ opened s' = opened self
  /\ answer_wanted_ s' = answer_wanted_ self.
Proof.
  intros Hd. apply deliver_frame in Hd as (Ht & Hdes & Ho & Hw).
  unfold transmitted, isConnected. rewrite Ht, Hdes. repeat split; done.
Qed.

(** The handler only ever sets the received flag. *)
Lemma deliver_received_kept chunks self s' :
  deliver chunks self = Done s' ->
  answer_received_ self = true -> answer_received_ s' = true.
Proof.
  revert self. induction chunks as [|data rest IH]; intros self; cbn.
  - by intros [= <-].
  - destruct (handleReceivedTCPData data self) as [s1| |] eqn:E;
      cbn [mbind run_bind]; try discriminate.
    intros Hd Hr. apply (IH _ Hd).
    destruct (handler_effect _ _ _ E)
      as [[_ ->]|[(_ & Hr' & _)|(_ & _ & Hr' & _)]]; congruence.
Qed.

(** While an answer is wanted, the flag after a sequence of chunks is set
    exactly if it was set before or some chunk had a byte, and no handler
    thread is started. *)
Lemma deliver_while_wanted chunks self s' :
  answer_wanted_ self = true ->
  deliver chunks self = Done s' ->
  detached s' = detached self
  /\ (answer_received_ s' = true <->
       answer_received_ self = true \/ non_empty chunks <> []).
Proof.
  revert self. induction chunks as [|data rest IH]; intros self Hw;
    cbn [deliver].
  - intros [= <-]. split; [done|]. unfold non_empty. cbn. tauto.
  - destruct (handleReceivedTCPData data self) as [s1| |] eqn:E;
      cbn [mbind run_bind]; try discriminate.
    intros Hd.
    pose proof (handleReceivedTCPData_frame _ _ _ E) as (_ & _ & _ & Hw1).
    rewrite Hw in Hw1. destruct (IH _ Hw1 Hd) as [Hdet Hrec].
    unfold non_empty in *. rewrite filter_cons.
    destruct (handler_effect _ _ _ E)
      as [[-> ->]|[(Hn & Hr1 & _ & Hdet1)|(_ & Hw0 & _)]];
      [| |congruence].
    + rewrite decide_False by (intros Hx; by apply Hx). done.
    + rewrite decide_True by done. split; [congruence|].
      split; [intros _; right; done|intros _].
      apply Hrec. by left.
Qed.

(** The verdict a chunk leads to, when it is taken as an outcome: while
    an answer is wanted, or when it is no session-end chunk. *)
Lemma handler_verdict command_id data self s' :
  case_labels_distinct ->
  answer_wanted_ self = true
  \/ (data !! 0 <> Some ERROR_CONTROL_ENDED
      /\ data !! 0 <> Some ERROR_FRI_ENDED) ->
  data <> [] ->
  handleReceivedTCPData data self = Done s' ->
  answer_received_ s' = true
  /\ (accepted_for command_id s' <->
       exists rest, data = ACCEPTED :: command_id :: SUCCESS :: rest).
Proof.
  intros Hd Hside Hne. apply case_labels_distinct_ne in Hd.
  unfold accepted_for.
  unfold handleReceivedTCPData, subscript;
    destruct data as [|d0 [|d1 [|d2 rest]]]; [done|..]; cbn in Hside |- *;
    repeat case_decide; try destruct (answer_wanted_ self) eqn:?;
    cbn beta iota zeta; try discriminate; intros [= <-]; cbn;
    try (exfalso; destruct Hside as [?|[? ?]]; congruence);
    (split; [reflexivity|]);
    (split; [intros (? & ? & ?); subst; try (exfalso; intuition congruence);
             eauto
            |intros (? & [= ? ? ?]); subst;
             try (exfalso; intuition congruence); auto]).
Qed.

End ReceivePath.

Section Calls.
Context `{Enumerators}.

(** A call on a channel with a transport is the wait on the state after
    the write, followed by the verdict on the record at waking. *)
Lemma call_unfold command_id command_data delivered self c :
  tcp_connection_ self = Some c ->
  sendCommandAndWait_data command_id command_data delivered self
  = w ← wait delivered (submitted (command_id :: command_data) c self);
    Done (assertLastCommandSuccess command_id w, cleared w).
Proof.
  intros Hc. unfold sendCommandAndWait_data, arrow. cbn. by rewrite Hc.
Qed.

Lemma call_no_transport command_id command_data delivered self :
  tcp_connection_ self = None ->
  sendCommandAndWait_data command_id command_data delivered self
  = Undefined NullTransport.
Proof.
  intros Hc. unfold sendCommandAndWait_data, arrow. cbn. by rewrite Hc.
Qed.

(** The object at the end of a call that returned or is suspended. *)
Lemma call_end_state command_id command_data delivered self s' :
  (exists b,
     sendCommandAndWait_data command_id command_data delivered self
     = Done (b, s'))
  \/ sendCommandAndWait_data command_id command_data delivered self
     = Blocked s' ->
  exists c w,
    tcp_connection_ self = Some c
    /\ deliver delivered (submitted (command_id :: command_data) c self)
       = Done w
    /\ (s' = cleared w \/ s' = w).
Proof.
  destruct (tcp_connection_ self) as [c|] eqn:Hc.
  - rewrite (call_unfold _ _ _ _ _ Hc). unfold wait.
    destruct (deliver delivered _) as [w|w|f] eqn:E; cbn [mbind run_bind].
    + destruct (answer_received_ w); cbn [mbind run_bind].
      * intros [[b [= _ <-]]|[=]]. eauto 6.
      * intros [[b [=]]|[= <-]]. eauto 6.
    + by apply deliver_not_blocked in E.
    + intros [[b [=]]|[=]].
  - rewrite (call_no_transport _ _ _ _ Hc). intros [[b [=]]|[=]].
Qed.

Lemma transmitted_submitted msg c self :
  tcp_connection_ self = Some c ->
  transmitted (submitted msg c self) = transmitted self ++ [msg].
Proof.
  intros Hc. unfold transmitted, submitted. cbn. rewrite Hc.
  by rewrite app_assoc.
Qed.

Lemma call_writes command_id command_data delivered self :
  writes (sendCommandAndWait_data command_id command_data delivered self)
    self (command_id :: command_data).
Proof.
  intros s' Hs. apply call_end_state in Hs as (c & w & Hc & Hd & Hs').
  apply deliver_transmitted in Hd.
  rewrite <- (transmitted_submitted _ _ _ Hc), <- Hd.
  by destruct Hs' as [-> | ->].
Qed.

(** X4.  A call never times out: on a channel with a transport, and
    with chunks the handler completes on, the call stays suspended
    exactly if no answer was pending at entry and no chunk with a byte
    arrives; a pending answer or any chunk with at least one byte makes
    it return. *)
Theorem call_returns_iff_answer_or_chunk
    command_id command_data delivered self c :
  tcp_connection_ self = Some c ->
  Forall (fun data => ~ short_outcome data) delivered ->
  ((exists w,
      sendCommandAndWait_data command_id command_data delivered self
      = Blocked w)
   <-> answer_received_ self = false /\ non_empty delivered = [])
  /\ ((exists r,
        sendCommandAndWait_data command_id command_data delivered self
        = Done r)
      <-> answer_received_ self = true \/ non_empty delivered <> []).
Proof.
  intros Hc Hall. rewrite (call_unfold _ _ _ _ _ Hc). unfold wait.
  destruct (deliver_done_not_short delivered
              (submitted (command_id :: command_data) c self) Hall)
    as [w Hw].
  rewrite Hw. cbn [mbind run_bind].
  destruct (deliver_while_wanted delivered
              (submitted (command_id :: command_data) c self) w eq_refl Hw)
    as [_ Hr].
  change (answer_received_ (submitted (command_id :: command_data) c self))
    with (answer_received_ self) in Hr.
  destruct (answer_received_ w); cbn [mbind run_bind]; split; split.
  - intros [? [=]].
  - intros [Ha Hb]. destruct (proj1 Hr eq_refl); congruence.
  - intros _. by apply Hr.
  - eauto.
  - intros _. split.
    + destruct (answer_received_ self); [|done].
      symmetry. apply Hr. by left.
    + destruct (non_empty delivered) eqn:E; [done|].
      assert (false = true) by (apply Hr; by right). done.
  - eauto.
  - intros [? [=]].
  - intros Hx. apply Hr in Hx. discriminate.
Qed.

(** X5.  On a channel with a transport, when the chunk with at least one
    byte that arrives last before the caller wakes is [data], and the
    handler completes on all chunks, the call returns, and it returns
    true exactly if [data] begins with ACCEPTED, the identifier of the
    command sent, SUCCESS; chunks before it and empty chunks after it
    have no influence on the result. *)
Theorem last_chunk_decides
    command_id command_data before data after self c :
  case_labels_distinct ->
  tcp_connection_ self = Some c ->
  Forall (fun data => ~ short_outcome data) before ->
  ~ short_outcome data ->
  data <> [] ->
  Forall (fun data => data = []) after ->
  exists b s',
    sendCommandAndWait_data command_id command_data
      (before ++ data :: after) self = Done (b, s')
    /\ (b = true <->
         exists rest, data = ACCEPTED :: command_id :: SUCCESS :: rest).
Proof.
  intros Hd Hc Hbefore Hdata Hne Hafter.
  rewrite (call_unfold _ _ _ _ _ Hc). unfold wait.
  rewrite deliver_app.
  destruct (deliver_done_not_short before
              (submitted (command_id :: command_data) c self) Hbefore)
    as [m Hm].
  rewrite Hm. cbn [mbind run_bind deliver].
  destruct (handler_done_not_short data m Hdata) as [w Hw].
  rewrite Hw. cbn [mbind run_bind].
  rewrite (deliver_empty_chunks _ _ Hafter). cbn [mbind run_bind].
  apply deliver_frame in Hm as (_ & _ & _ & Hwanted).
  destruct (handler_verdict command_id data m w Hd (or_introl Hwanted)
              Hne Hw) as [Hr Hv].
  rewrite Hr. cbn [mbind run_bind].
  do 2 eexists. split; [reflexivity|].
  rewrite assertLastCommandSuccess_true. exact Hv.
Qed.

(** X6.  No error handler is started while a command is outstanding:
    whatever chunks arrive during a call, session-end chunks included,
    the call ends with the same handler threads as it began with, and
    with the transport bookkeeping unchanged apart from the one message
    written. *)
Theorem no_handler_thread_during_call
    command_id command_data delivered self s' :
  (exists b,
     sendCommandAndWait_data command_id command_data delivered self
     = Done (b, s'))
  \/ sendCommandAndWait_data command_id command_data delivered self
     = Blocked s' ->
  detached s' = detached self
  /\ destroyed s' = destroyed self
  /\ opened s' = opened self
  /\ isConnected s' = true.
Proof.
  intros Hs. apply call_end_state in Hs as (c & w & Hc & Hd & Hs').
  destruct (deliver_while_wanted delivered
              (submitted (command_id :: command_data) c self) w eq_refl Hd)
    as [Hdet _].
  apply deliver_frame in Hd as (Ht & Hdes & Ho & _).
  destruct Hs' as [-> | ->]; unfold isConnected; cbn;
    rewrite Hdet, Hdes, Ho, Ht; repeat split; done.
Qed.

(** X7.  An outcome chunk that arrives while no command is outstanding
    is kept as a pending answer: unless it is a session-end chunk, a
    chunk with at least one byte handled before a call makes that call
    return at once, with no chunk arriving during its wait, and the call
    returns true exactly if that earlier chunk begins with ACCEPTED, the
    identifier of the command now sent, SUCCESS. *)
Theorem earlier_chunk_answers_next_call
    command_id command_data data self s1 c :
  case_labels_distinct ->
  tcp_connection_ self = Some c ->
  data <> [] ->
  data !! 0 <> Some ERROR_CONTROL_ENDED ->
  data !! 0 <> Some ERROR_FRI_ENDED ->
  handleReceivedTCPData data self = Done s1 ->
  exists b s',
    sendCommandAndWait_data command_id command_data [] s1 = Done (b, s')
    /\ (b = true <->
         exists rest, data = ACCEPTED :: command_id :: SUCCESS :: rest).
Proof.
  intros Hd Hc Hne Hce Hfe Hs1.
  destruct (handler_verdict command_id data self s1 Hd
              (or_intror (conj Hce Hfe)) Hne Hs1) as [Hr Hv].
  pose proof (handleReceivedTCPData_frame _ _ _ Hs1) as (Ht & _).
  rewrite Hc in Ht.
  rewrite (call_unfold _ _ _ _ _ Ht). unfold wait. cbn [deliver mbind run_bind].
  change (answer_received_ (submitted (command_id :: command_data) c s1))
    with (answer_received_ s1).
  rewrite Hr. cbn [mbind run_bind].
  do 2 eexists. split; [reflexivity|].
  rewrite assertLastCommandSuccess_true. exact Hv.
Qed.

(** X8.  A call dereferences the transport pointer without a test: its
    behaviour is undefined through the null pointer exactly if the
    channel owns no transport; the only other fault a call can run into
    is the handler's read outside a chunk. *)
Theorem call_null_transport_iff command_id command_data delivered self :
  (sendCommandAndWait_data command_id command_data delivered self
   = Undefined NullTransport
   <-> tcp_connection_ self = None)
  /\ (forall f,
       sendCommandAndWait_data command_id command_data delivered self
       = Undefined f ->
       f = NullTransport \/ exists i n, f = OutOfRange i n /\ n <= i).
Proof.
  assert (Hdel : forall chunks s f, deliver chunks s = Undefined f ->
            exists i n, f = OutOfRange i n /\ n <= i).
  { induction chunks as [|data rest IH]; intros s f; cbn; [discriminate|].
    destruct (handleReceivedTCPData data s) as [s1|s1|g] eqn:E;
      cbn [mbind run_bind].
    - apply IH.
    - discriminate.
    - intros [= <-]. apply handler_fault_out_of_range in E as (i & -> & Hi).
      eauto. }
  destruct (tcp_connection_ self) as [c|] eqn:Hc.
  - rewrite (call_unfold _ _ _ _ _ Hc). unfold wait.
    destruct (deliver delivered _) as [w|w|f] eqn:E; cbn [mbind run_bind].
    + destruct (answer_received_ w); cbn [mbind run_bind];
        (split; [split; discriminate|discriminate]).
    + by apply deliver_not_blocked in E.
    + apply Hdel in E as (i & n & -> & Hi).
      split; [split; discriminate|]. intros f [= <-]. eauto.
  - rewrite (call_no_transport _ _ _ _ Hc).
    split; [done|]. intros f [= <-]. by left.
Qed.

(** X9.  What each command writes to the transport, in a call that
    returns or stays suspended: the command identifier alone for
    [startFRI], [endFRI], [activateControl] and [deactivateControl];
    SET_CONTROL_MODE followed by POSITION_CONTROL_MODE for
    [setPositionControlMode]; SET_COMMAND_MODE followed by the mode byte
    for [setClientCommandMode]; in general one message per call, the
    identifier followed by the payload. *)
Theorem commands_on_the_wire
    command_id command_data client_command_mode delivered self :
  writes (sendCommandAndWait command_id delivered self) self [command_id]
  /\ writes (sendCommandAndWait_data command_id command_data delivered self)
       self (command_id :: command_data)
  /\ writes (startFRI delivered self) self [START_FRI]
  /\ writes (endFRI delivered self) self [END_FRI]
  /\ writes (activateControl delivered self) self [ACTIVATE_CONTROL]
  /\ writes (deactivateControl delivered self) self [DEACTIVATE_CONTROL]
  /\ writes (setPositionControlMode delivered self) self
       [SET_CONTROL_MODE; POSITION_CONTROL_MODE]
  /\ writes (setClientCommandMode client_command_mode delivered self) self
       [SET_COMMAND_MODE; client_command_mode].
Proof.
  repeat split;
    first [ apply (call_writes _ [])
          | apply call_writes ].
Qed.

(** X15.  An answer is used once: a call that returned has cleared the
    received flag, so the next call on the channel, of any command, does
    not return on the old answer; with no chunk carrying a byte it stays
    suspended, its own message written. *)
Theorem answer_used_once
    command_id command_data delivered next_id next_data later self b s' :
  sendCommandAndWait_data command_id command_data delivered self
  = Done (b, s') ->
  Forall (fun data => data = []) later ->
  exists w,
    sendCommandAndWait_data next_id next_data later s' = Blocked w
    /\ transmitted w
       = transmitted self
         ++ [command_id :: command_data; next_id :: next_data].
Proof.
  intros Hs Hlater.
  pose proof (call_writes command_id command_data delivered self s'
                (or_introl (ex_intro _ b Hs))) as Hw1.
  apply sendCommandAndWait_data_returns in Hs as (w & Hw & [= _ ->]).
  apply wakes_in_frame in Hw as (c & _ & Htcp & _).
  assert (Hc : tcp_connection_ (cleared w)
               = Some (sendBytes (command_id :: command_data) c))
    by exact Htcp.
  rewrite (call_unfold _ _ _ _ _ Hc). unfold wait.
  rewrite (deliver_empty_chunks _ _ Hlater). cbn [mbind run_bind].
  change (answer_received_ (submitted (next_id :: next_data) _ (cleared w)))
    with false.
  cbn iota. eexists. split; [reflexivity|].
  rewrite (transmitted_submitted _ _ _ Hc), Hw1, <- app_assoc. reflexivity.
Qed.

End Calls.

Section Lifecycle.
Context `{Enumerators}.

Lemma handler_accepted id ok rest self :
  handleReceivedTCPData (ACCEPTED :: id :: ok :: rest) self
  = Done (notify_one (set_answer_received_ true
            (set_last_command_success_ ok
               (set_last_command_id_ id
                  (set_last_command_state_ ACCEPTED self))))).
Proof.
  unfold handleReceivedTCPData, subscript. cbn.
  repeat case_decide; try reflexivity; exfalso; first [done|lia].
Qed.

(** An acknowledgement of the command sent, as the only chunk, makes the
    call return true. *)
Lemma call_acknowledged command_id rest self c :
  tcp_connection_ self = Some c ->
  exists s',
    sendCommandAndWait command_id [ACCEPTED :: command_id :: SUCCESS :: rest]
      self = Done (true, s')
    /\ tcp_connection_ s' = Some (sendByte command_id c)
    /\ destroyed s' = destroyed self.
Proof.
  intros Hc. eexists. split; [|split].
  - apply sendCommandAndWait_returns. eexists. split.
    + exists c. split; [exact Hc|]. cbn [deliver].
      rewrite handler_accepted. cbn [mbind run_bind]. split; reflexivity.
    + f_equal. symmetry. apply assertLastCommandSuccess_true.
      repeat split.
  - reflexivity.
  - reflexivity.
Qed.

(** X10.  What is left of the connection when [connect] returns false.
    When the transport cannot be opened, a transport the channel owned
    before is destroyed as it was, with nothing written to it, and the
    channel is disconnected.  When the transport opens and CONNECT is
    not acknowledged with success, the channel keeps the fresh transport:
    [isConnected] is true although [connect] returned false. *)
Theorem connect_false_results addr port delivered self :
  (forall old,
     tcp_connection_ self = Some old ->
     exists s',
       connect addr port false delivered self = Done (false, s')
       /\ isConnected s' = false
       /\ destroyed s' = destroyed self ++ [old]
       /\ transmitted s' = transmitted self)
  /\ (forall w,
       wakes_in [CONNECT] delivered (reopened addr port self) w ->
       ~ accepted_for CONNECT w ->
       exists s',
         connect addr port true delivered self = Done (false, s')
         /\ isConnected s' = true
         /\ tcp_connection_ s'
            = Some (mkTCPConnection addr port [[CONNECT]] false)).
Proof.
  split.
  - intros old Hold. eexists. split; [reflexivity|]. split; [reflexivity|].
    split.
    + cbn. unfold release. cbn. by rewrite Hold.
    + by rewrite transmitted_reset.
  - intros w Hw Hn.
    pose proof (proj2 (sendCommandAndWait_returns CONNECT delivered _ _)
                  (ex_intro _ w (conj Hw eq_refl))) as Hs.
    apply assertLastCommandSuccess_false in Hn. rewrite Hn in Hs.
    apply wakes_in_frame in Hw as (c & [= <-] & Htcp & _).
    exists (cleared w). split; [exact Hs|].
    unfold isConnected. cbn. rewrite Htcp. done.
Qed.

(** X11.  Connecting and disconnecting, each acknowledged with success:
    both calls return true, the channel ends without transport, the
    transport used in between has carried exactly CONNECT and then
    DISCONNECT and has been closed before it was destroyed, and a further
    [disconnect] returns true and changes nothing. *)
Theorem connect_then_disconnect addr port rest1 rest2 self :
  exists s1 s2,
    connect addr port true [ACCEPTED :: CONNECT :: SUCCESS :: rest1] self
    = Done (true, s1)
    /\ disconnect [ACCEPTED :: DISCONNECT :: SUCCESS :: rest2] s1
       = Done (true, s2)
    /\ tcp_connection_ s2 = None
    /\ destroyed s2
       = release self
         ++ [mkTCPConnection addr port [[CONNECT]; [DISCONNECT]] true]
    /\ forall delivered, disconnect delivered s2 = Done (true, s2).
Proof.
  destruct (call_acknowledged CONNECT rest1 (reopened addr port self)
              (mkTCPConnection addr port [] false) eq_refl)
    as (s1 & Hs1 & Ht1 & Hd1).
  destruct (call_acknowledged DISCONNECT rest2 s1 _ Ht1)
    as (m & Hm & Htm & Hdm).
  exists s1. eexists. split; [exact Hs1|].
  split.
  - unfold disconnect. rewrite Ht1, Hm. cbn [mbind run_bind fst snd].
    rewrite bool_decide_eq_true_2 by done.
    unfold arrow. rewrite Htm. cbn [mbind run_bind]. reflexivity.
  - split; [reflexivity|]. split.
    + cbn. unfold release at 1. cbn. rewrite Hdm, Hd1. reflexivity.
    + intros delivered. reflexivity.
Qed.

(** X12.  The destructor.  Without transport it sends nothing.  With a
    transport it sends DISCONNECT and waits like [disconnect]; once the
    wait resolves the transport is destroyed either way, after
    [closeConnection] if the disconnect was acknowledged with success and
    without it otherwise.  With no answer pending and no chunk with a
    byte arriving, the destructor does not return. *)
Theorem destructor_outcomes delivered self :
  (tcp_connection_ self = None ->
     exists s',
       FRIConnection_delete delivered self = Done s'
       /\ tcp_connection_ s' = None
       /\ destroyed s' = destroyed self
       /\ transmitted s' = transmitted self)
  /\ (forall c w,
       tcp_connection_ self = Some c ->
       wakes_in [DISCONNECT] delivered self w ->
       exists s',
         FRIConnection_delete delivered self = Done s'
         /\ tcp_connection_ s' = None
         /\ (accepted_for DISCONNECT w ->
              destroyed s'
              = destroyed self ++ [closeConnection (sendByte DISCONNECT c)])
         /\ (~ accepted_for DISCONNECT w ->
              destroyed s' = destroyed self ++ [sendByte DISCONNECT c]))
  /\ (forall c,
       tcp_connection_ self = Some c ->
       answer_received_ self = false ->
       Forall (fun data => data = []) delivered ->
       exists w, FRIConnection_delete delivered self = Blocked w).
Proof.
  split; [|split].
  - intros Hc. unfold FRIConnection_delete, disconnect. rewrite Hc.
    cbn [mbind run_bind snd]. eexists. split; [reflexivity|].
    split; [reflexivity|]. split.
    + cbn. unfold release. by rewrite Hc.
    + by rewrite transmitted_reset.
  - intros c w Hc Hw.
    pose proof (proj2 (sendCommandAndWait_returns DISCONNECT delivered self _)
                  (ex_intro _ w (conj Hw eq_refl))) as Hs.
    apply wakes_in_frame in Hw as (c' & Hc' & Htcp & Hdes & _).
    rewrite Hc in Hc'. injection Hc' as <-.
    unfold FRIConnection_delete, disconnect. rewrite Hc, Hs.
    cbn [mbind run_bind fst snd].
    destruct (assertLastCommandSuccess DISCONNECT w) eqn:Ha.
    + rewrite bool_decide_eq_true_2 by done.
      unfold arrow. cbn [cleared tcp_connection_ set_answer_wanted_
        set_answer_received_]. rewrite Htcp. cbn [mbind run_bind snd].
      eexists. split; [reflexivity|]. split; [reflexivity|]. split.
      * intros _. cbn. unfold release. cbn. by rewrite Hdes.
      * intros Hn. apply assertLastCommandSuccess_true in Ha. tauto.
    + rewrite bool_decide_eq_false_2 by done. cbn [mbind run_bind snd].
      eexists. split; [reflexivity|]. split; [reflexivity|]. split.
      * intros Hy. apply assertLastCommandSuccess_true in Hy. congruence.
      * intros _. cbn. unfold release. cbn. by rewrite Htcp, Hdes.
  - intros c Hc Hr Hall.
    unfold FRIConnection_delete, disconnect, sendCommandAndWait, arrow, wait.
    rewrite Hc. cbn. rewrite Hc. cbn [mbind run_bind].
    rewrite (deliver_empty_chunks _ _ Hall). cbn. rewrite Hr.
    cbn [mbind run_bind]. eauto.
Qed.

End Lifecycle.

Section Payload.
Context `{Enumerators}.
Variable double : Type.
Variable JOINT_IMPEDANCE_CONTROL_MODE : byte.
Variable CONTROL_MODE_HEADER : list byte.
Variable FRI_CONFIG_HEADER : list byte.
Variable serializeNext_double : double -> list byte -> Z * list byte.
Variable serializeNext_int : Z -> list byte -> Z * list byte.

Lemma emplace_header_serialized header st :
  (emplace_header header st).2 = st.2 ++ header.
Proof.
  unfold emplace_header. revert st.
  induction header as [|b rest IH]; intros st; cbn.
  - by rewrite app_nil_r.
  - rewrite IH. cbn. by rewrite <- app_assoc.
Qed.

Lemma serialize_all_serialized {T : Type}
    (serializeNext : T -> list byte -> Z * list byte)
    (encode : T -> list byte) values st :
  (forall value serialized,
     (serializeNext value serialized).2 = serialized ++ encode value) ->
  (foldl (serialize_step serializeNext) st values).2
  = st.2 ++ concat (map encode values).
Proof.
  intros Happ. revert st.
  induction values as [|v rest IH]; intros st; cbn.
  - by rewrite app_nil_r.
  - rewrite IH. cbn. rewrite Happ. by rewrite <- app_assoc.
Qed.

(** X13.  [setJointImpedanceControlMode]: given that [serializeNext]
    appends the encoding of its value to the vector, the payload is the
    mode byte, the header, the encodings of all stiffness values and
    then of all damping values, in this order and for vectors of any
    length (the seven joints are assumed only in the call of [reserve]);
    the call writes SET_CONTROL_MODE followed by this payload. *)
Theorem joint_impedance_payload
    (encode : double -> list byte) joint_stiffness joint_damping
    delivered self :
  (forall value serialized,
     (serializeNext_double value serialized).2 = serialized ++ encode value) ->
  let payload :=
    JOINT_IMPEDANCE_CONTROL_MODE :: CONTROL_MODE_HEADER
      ++ concat (map encode joint_stiffness)
      ++ concat (map encode joint_damping) in
  (setJointImpedanceControlMode_serialized double
     JOINT_IMPEDANCE_CONTROL_MODE CONTROL_MODE_HEADER serializeNext_double
     joint_stiffness joint_damping).2 = payload
  /\ writes
       (setJointImpedanceControlMode double JOINT_IMPEDANCE_CONTROL_MODE
          CONTROL_MODE_HEADER serializeNext_double joint_stiffness
          joint_damping delivered self)
       self (SET_CONTROL_MODE :: payload).
Proof.
  intros Happ payload.
  assert (Hp : (setJointImpedanceControlMode_serialized double
                  JOINT_IMPEDANCE_CONTROL_MODE CONTROL_MODE_HEADER
                  serializeNext_double joint_stiffness joint_damping).2
               = payload).
  { unfold setJointImpedanceControlMode_serialized, payload.
    cbn zeta.
    rewrite !(serialize_all_serialized _ encode _ _ Happ).
    rewrite emplace_header_serialized. cbn.
    by rewrite <- !app_assoc. }
  split; [exact Hp|].
  unfold setJointImpedanceControlMode. cbn zeta. rewrite Hp.
  apply call_writes.
Qed.

(** X14.  [setFRIConfig]: given that [serializeNext] appends the encoding
    of its value to the vector, the payload is the header followed by
    the encodings of the remote port, the send period and the receive
    multiplier, in this order; the call writes SET_FRI_CONFIG followed by
    this payload. *)
Theorem fri_config_payload
    (encode : Z -> list byte) remote_port send_period_ms receive_multiplier
    delivered self :
  (forall value serialized,
     (serializeNext_int value serialized).2 = serialized ++ encode value) ->
  let payload :=
    FRI_CONFIG_HEADER ++ encode remote_port ++ encode send_period_ms
      ++ encode receive_multiplier in
  (setFRIConfig_serialized FRI_CONFIG_HEADER serializeNext_int remote_port
     send_period_ms receive_multiplier).2 = payload
  /\ writes
       (setFRIConfig FRI_CONFIG_HEADER serializeNext_int remote_port
          send_period_ms receive_multiplier delivered self)
       self (SET_FRI_CONFIG :: payload).
Proof.
  intros Happ payload.
  assert (Hp : (setFRIConfig_serialized FRI_CONFIG_HEADER serializeNext_int
                  remote_port send_period_ms receive_multiplier).2
               = payload).
  { unfold setFRIConfig_serialized, serialize_step, payload. cbn.
    rewrite !Happ, emplace_header_serialized. cbn.
    by rewrite <- !app_assoc. }
  split; [exact Hp|].
  unfold setFRIConfig. cbn zeta. rewrite Hp.
  apply call_writes.
Qed.

End Payload.

(** ** The theorems on concrete runs *)
#[local] Existing Instance sample_enumerators.

Lemma sendCommandAndWait_true_iff_accepted_witness :
  let delivered := [[ACCEPTED; SET_CONTROL_MODE; SUCCESS]] in
  exists w1 w2,
    wakes_in [SET_CONTROL_MODE] delivered sample_open w1
    /\ wakes_in [SET_CONTROL_MODE; POSITION_CONTROL_MODE] delivered
         sample_open w2
    /\ (exists b,
          sendCommandAndWait SET_CONTROL_MODE delivered sample_open
            = Done (b, cleared w1)
          /\ (b = true <-> accepted_for SET_CONTROL_MODE w1)
          /\ (b = false <-> ~ accepted_for SET_CONTROL_MODE w1))
    /\ (exists b,
          sendCommandAndWait_data SET_CONTROL_MODE [POSITION_CONTROL_MODE]
            delivered sample_open = Done (b, cleared w2)
          /\ (b = true <-> accepted_for SET_CONTROL_MODE w2)
          /\ (b = false <-> ~ accepted_for SET_CONTROL_MODE w2)).
Proof.
  intros delivered.
  assert (H1 : { w | wakes_in [SET_CONTROL_MODE] delivered sample_open w }).
  { eexists. eexists. split; [reflexivity|].
    split; [vm_compute; reflexivity|reflexivity]. }
  assert (H2 : { w | wakes_in [SET_CONTROL_MODE; POSITION_CONTROL_MODE]
                       delivered sample_open w }).
  { eexists. eexists. split; [reflexivity|].
    split; [vm_compute; reflexivity|reflexivity]. }
  destruct H1 as [w1 H1], H2 as [w2 H2]. exists w1, w2.
  split; [exact H1|]. split; [exact H2|].
  destruct (sendCommandAndWait_true_iff_accepted SET_CONTROL_MODE
              [POSITION_CONTROL_MODE] delivered sample_open) as [T1 T2].
  split; [exact (T1 w1 H1)|exact (T2 w2 H2)].
Defined.

Lemma short_outcome_chunk_read_out_of_range_witness :
  case_labels_distinct
  /\ ([ACCEPTED; START_FRI] !! 0 = Some ACCEPTED
      /\ length [ACCEPTED; START_FRI] < 3)
  /\ exists i,
       length [ACCEPTED; START_FRI] <= i
       /\ handleReceivedTCPData [ACCEPTED; START_FRI] sample_open
          = Undefined (OutOfRange i (length [ACCEPTED; START_FRI])).
Proof.
  assert (Hd : case_labels_distinct).
  { unfold case_labels_distinct. apply (bool_decide_unpack _).
    vm_compute. exact I. }
  assert (Hs : [ACCEPTED; START_FRI] !! 0 = Some ACCEPTED
               /\ length [ACCEPTED; START_FRI] < 3).
  { split; [reflexivity|cbn; lia]. }
  split; [exact Hd|]. split; [exact Hs|].
  apply (short_outcome_chunk_read_out_of_range [ACCEPTED; START_FRI]
           sample_open Hd (or_introl Hs)).
Defined.

Lemma session_end_chunk_dispatch_witness :
  case_labels_distinct
  /\ (exists s',
        handleReceivedTCPData [ERROR_CONTROL_ENDED] sample_open = Done s'
        /\ handed_to handleControlEndedError_ sample_open s')
  /\ (exists s',
        handleReceivedTCPData [ERROR_FRI_ENDED] sample_open = Done s'
        /\ handed_to handleFRIEndedError_ sample_open s').
Proof.
  assert (Hd : case_labels_distinct).
  { unfold case_labels_distinct. apply (bool_decide_unpack _).
    vm_compute. exact I. }
  split; [exact Hd|].
  exact (session_end_chunk_dispatch [] sample_open Hd).
Defined.

Lemma unrecognized_chunk_recorded_empty_chunk_ignored_witness :
  (xff ∉ [ACCEPTED; REJECTED; UNKNOWN; ERROR_CONTROL_ENDED; ERROR_FRI_ENDED])
  /\ (exists s',
        handleReceivedTCPData [xff; x00] sample_open = Done s'
        /\ taken_as_outcome UNKNOWN sample_open s')
  /\ handleReceivedTCPData [] sample_open = Done sample_open.
Proof.
  assert (Ht : xff ∉ [ACCEPTED; REJECTED; UNKNOWN; ERROR_CONTROL_ENDED;
                      ERROR_FRI_ENDED]).
  { apply (bool_decide_unpack _). vm_compute. exact I. }
  split; [exact Ht|].
  exact (unrecognized_chunk_recorded_empty_chunk_ignored xff [x00]
           sample_open Ht).
Defined.

(** C8, the claim as stated fails on the empty chunk: a new channel holds
    the state ACCEPTED, and after the handler ran on an empty chunk the
    state is not UNKNOWN, the received flag is not set and nobody has
    been notified. *)
Lemma empty_chunk_not_recorded :
  ~ (exists s',
       handleReceivedTCPData [] FRIConnection_new = Done s'
       /\ last_command_state_ s' = UNKNOWN
       /\ answer_received_ s' = true
       /\ notified s' = S (notified FRIConnection_new)).
Proof. intros (s' & [= <-] & _ & Hr & _). discriminate Hr. Qed.

Lemma sendCommandAndWait_ignores_awaiting_flag_witness :
  let delivered := [[ACCEPTED; START_FRI; SUCCESS]] in
  sendCommandAndWait START_FRI delivered (set_answer_wanted_ true sample_open)
    = sendCommandAndWait START_FRI delivered sample_open
  /\ exists r, sendCommandAndWait START_FRI delivered sample_open = Done r
       /\ answer_wanted_ r.2 = false.
Proof.
  intros delivered.
  destruct (sendCommandAndWait_ignores_awaiting_flag START_FRI []
              delivered sample_open true) as (T1 & _ & T3 & _).
  split; [exact T1|].
  eexists. split; [vm_compute; reflexivity|].
  apply T3. vm_compute; reflexivity.
Defined.

(** C4, the claim as stated fails: on a channel whose awaiting flag is
    already set, [sendCommandAndWait] reports no fault: it writes the
    command to the transport, waits, and returns true on the
    acknowledgement; with no chunk arriving it stays in the wait, the
    command written. *)
Lemma second_command_not_detected :
  let self := set_answer_wanted_ true sample_open in
  answer_wanted_ self = true
  /\ sendCommandAndWait START_FRI [[ACCEPTED; START_FRI; SUCCESS]] self
     = Done (true,
         mkFRIConnection
           (Some (mkTCPConnection "10.0.0.1" 30200 [[START_FRI]] false))
           ACCEPTED START_FRI SUCCESS false false 1 [] [] [])
  /\ exists w,
       sendCommandAndWait START_FRI [] self = Blocked w
       /\ transmitted w = [[START_FRI]].
Proof.
  split; [reflexivity|]. split; [vm_compute; reflexivity|].
  eexists. split; vm_compute; reflexivity.
Qed.

Lemma datagram_server_callbacks_and_rearm_witness :
  let callback := fun data : UDPServerData => p_data data in
  let srv := UDPServer_new 30201 true in
  receiving srv
  /\ receiving (serve callback sample_arrivals srv)
  /\ invocations (serve callback sample_arrivals srv) = 2
  /\ replies (serve callback sample_arrivals srv)
     = [(mkEndpoint "192.168.1.10" 49152, [x01; x02; x03])].
Proof.
  intros callback srv.
  assert (Hr : receiving srv) by (repeat split).
  destruct (datagram_server_callbacks_and_rearm callback 30201%N
              sample_arrivals srv Hr) as (_ & T2 & T3 & _).
  split; [exact Hr|]. split; [exact T2|]. split; [exact T3|].
  vm_compute; reflexivity.
Defined.

Lemma disconnect_outcomes_witness :
  let delivered := [[ACCEPTED; DISCONNECT; SUCCESS]] in
  disconnect delivered FRIConnection_new = Done (true, FRIConnection_new)
  /\ exists c w,
       tcp_connection_ sample_open = Some c
       /\ deliver delivered (submitted [DISCONNECT] c sample_open) = Done w
       /\ answer_received_ w = true
       /\ accepted_for DISCONNECT w
       /\ exists s',
            disconnect delivered sample_open = Done (true, s')
            /\ tcp_connection_ s' = None
            /\ destroyed s'
               = [mkTCPConnection "10.0.0.1" 30200 [[DISCONNECT]] true].
Proof.
  intros delivered.
  split; [exact (proj1 (disconnect_outcomes delivered FRIConnection_new)
                   eq_refl)|].
  assert (Hw : { w | deliver delivered
                       (submitted [DISCONNECT]
                          (mkTCPConnection "10.0.0.1" 30200 [] false)
                          sample_open) = Done w }).
  { eexists. vm_compute; reflexivity. }
  destruct Hw as [w Hw]. eexists _, w.
  split; [reflexivity|]. split; [exact Hw|].
  assert (Hr : answer_received_ w = true).
  { vm_compute in Hw. injection Hw as <-. reflexivity. }
  assert (Ha : accepted_for DISCONNECT w).
  { vm_compute in Hw. injection Hw as <-. repeat split. }
  split; [exact Hr|]. split; [exact Ha|].
  destruct (proj2 (disconnect_outcomes delivered sample_open) _ w
              eq_refl Hw Hr) as (b & s' & Hd & Hyes & _).
  destruct (Hyes Ha) as (-> & Ht & Hdes).
  exists s'. split; [exact Hd|]. split; [exact Ht|exact Hdes].
Defined.

Lemma connect_open_failure_and_success_witness :
  let delivered := [[ACCEPTED; CONNECT; SUCCESS]] in
  (exists s',
     connect "10.0.0.1" 30200 false delivered sample_open = Done (false, s')
     /\ tcp_connection_ s' = None
     /\ transmitted s' = transmitted sample_open)
  /\ exists w,
       wakes_in [CONNECT] delivered
         (reopened "10.0.0.1" 30200 FRIConnection_new) w
       /\ exists b s',
            connect "10.0.0.1" 30200 true delivered FRIConnection_new
              = Done (b, s')
            /\ (b = true <-> accepted_for CONNECT w)
            /\ tcp_connection_ s'
               = Some (mkTCPConnection "10.0.0.1" 30200 [[CONNECT]] false).
Proof.
  intros delivered.
  split;
    [exact (proj1 (connect_open_failure_and_success "10.0.0.1" 30200
                     delivered sample_open))|].
  assert (Hw : { w | wakes_in [CONNECT] delivered
                       (reopened "10.0.0.1" 30200 FRIConnection_new) w }).
  { eexists. eexists. split; [reflexivity|].
    split; [vm_compute; reflexivity|reflexivity]. }
  destruct Hw as [w Hw]. exists w. split; [exact Hw|].
  exact (proj1 (proj2 (connect_open_failure_and_success "10.0.0.1" 30200
                         delivered FRIConnection_new)) w Hw).
Defined.

Lemma connectionLostCallback_single_attempt_witness :
  let delivered := [[REJECTED; CONNECT]] in
  exists s',
    connect "10.0.0.1" 30200 true delivered sample_open = Done (false, s')
    /\ connectionLostCallback "10.0.0.1" 30200 true delivered sample_open
       = Done s'
    /\ opened s' = [("10.0.0.1", 30200%Z)].
Proof.
  intros delivered.
  destruct (connectionLostCallback_single_attempt "10.0.0.1" 30200 true
              delivered sample_open) as (T1 & T2 & _).
  assert (Hc : { s' | connect "10.0.0.1" 30200 true delivered sample_open
                      = Done (false, s') }).
  { eexists. vm_compute; reflexivity. }
  destruct Hc as [s' Hc]. exists s'.
  split; [exact Hc|]. split; [exact (T1 false s' Hc)|].
  exact (T2 s' (or_introl (T1 false s' Hc))).
Defined.

Lemma connect_replaces_owned_transport_witness :
  let delivered := [[ACCEPTED; CONNECT; SUCCESS]] in
  let old := mkTCPConnection "10.0.0.1" 30200 [] false in
  tcp_connection_ sample_open = Some old
  /\ exists w,
       wakes_in [CONNECT] delivered (reopened "10.0.0.2" 30300 sample_open) w
       /\ exists b s',
            connect "10.0.0.2" 30300 true delivered sample_open = Done (b, s')
            /\ (b = true <-> accepted_for CONNECT w)
            /\ tcp_connection_ s'
               = Some (mkTCPConnection "10.0.0.2" 30300 [[CONNECT]] false)
            /\ destroyed s' = destroyed sample_open ++ [old]
            /\ transmitted s' = transmitted sample_open ++ [[CONNECT]].
Proof.
  intros delivered old. split; [reflexivity|].
  assert (Hw : { w | wakes_in [CONNECT] delivered
                       (reopened "10.0.0.2" 30300 sample_open) w }).
  { eexists. eexists. split; [reflexivity|].
    split; [vm_compute; reflexivity|reflexivity]. }
  destruct Hw as [w Hw]. exists w. split; [exact Hw|].
  exact (connect_replaces_owned_transport "10.0.0.2" 30300 delivered
           sample_open old w eq_refl Hw).
Defined.

(** ** The further properties on concrete runs *)

Ltac sample_distinct :=
  unfold case_labels_distinct; apply (bool_decide_unpack _);
  vm_compute; exact I.

Ltac sample_not_short :=
  unfold short_outcome; cbn;
  let H := fresh in
  intros [[H ?]|[H ?]]; first [discriminate H | lia].

Lemma handler_undefined_iff_short_witness :
  case_labels_distinct
  /\ short_outcome [REJECTED]
  /\ (exists i,
        length [REJECTED] <= i
        /\ handleReceivedTCPData [REJECTED] sample_open
           = Undefined (OutOfRange i (length [REJECTED])))
  /\ ~ short_outcome [REJECTED; START_FRI]
  /\ exists s', handleReceivedTCPData [REJECTED; START_FRI] sample_open = Done s'.
Proof.
  assert (Hd : case_labels_distinct) by sample_distinct.
  assert (Hs : short_outcome [REJECTED]).
  { right. split; [reflexivity|cbn; lia]. }
  assert (Hn : ~ short_outcome [REJECTED; START_FRI]) by sample_not_short.
  split; [exact Hd|]. split; [exact Hs|].
  split;
    [exact (proj1 (proj1 (handler_undefined_iff_short [REJECTED] sample_open
                            Hd)) Hs)|].
  split; [exact Hn|].
  exact (proj1 (proj2 (handler_undefined_iff_short [REJECTED; START_FRI]
                         sample_open Hd)) Hn).
Defined.

Lemma one_effect_per_non_empty_chunk_witness :
  let chunks :=
    [[]; [ACCEPTED; START_FRI; SUCCESS]; [ERROR_CONTROL_ENDED]; [xff]] in
  exists s',
    deliver chunks sample_open = Done s'
    /\ effects s' = effects sample_open + length (non_empty chunks)
    /\ length (non_empty chunks) = 3.
Proof.
  intros chunks.
  assert (Hd : { s' | deliver chunks sample_open = Done s' }).
  { eexists. vm_compute; reflexivity. }
  destruct Hd as [s' Hd]. exists s'. split; [exact Hd|].
  split; [exact (one_effect_per_non_empty_chunk chunks sample_open s' Hd)|].
  reflexivity.
Defined.

Lemma receive_path_leaves_transport_alone_witness :
  let chunks := [[ACCEPTED; START_FRI; SUCCESS]; [ERROR_FRI_ENDED]] in
  exists s',
    deliver chunks sample_open = Done s'
    /\ tcp_connection_ s' = tcp_connection_ sample_open
    /\ transmitted s' = transmitted sample_open
    /\ isConnected s' = isConnected sample_open
    /\ destroyed s' = destroyed sample_open
    /\ opened s' = opened sample_open
    /\ answer_wanted_ s' = answer_wanted_ sample_open.
Proof.
  intros chunks.
  assert (Hd : { s' | deliver chunks sample_open = Done s' }).
  { eexists. vm_compute; reflexivity. }
  destruct Hd as [s' Hd]. exists s'. split; [exact Hd|].
  exact (receive_path_leaves_transport_alone chunks sample_open s' Hd).
Defined.

Lemma call_returns_iff_answer_or_chunk_witness :
  let c := mkTCPConnection "10.0.0.1" 30200 [] false in
  tcp_connection_ sample_open = Some c
  /\ Forall (fun data => ~ short_outcome data) [[]; []]
  /\ Forall (fun data => ~ short_outcome data) [[]; [UNKNOWN]]
  /\ (exists w,
        sendCommandAndWait_data START_FRI [] [[]; []] sample_open = Blocked w)
  /\ (exists r,
        sendCommandAndWait_data START_FRI [] [[]; [UNKNOWN]] sample_open
        = Done r).
Proof.
  intros c.
  assert (H1 : Forall (fun data => ~ short_outcome data) [[]; []]).
  { repeat constructor; sample_not_short. }
  assert (H2 : Forall (fun data => ~ short_outcome data) [[]; [UNKNOWN]]).
  { repeat constructor; sample_not_short. }
  split; [reflexivity|]. split; [exact H1|]. split; [exact H2|]. split.
  - apply (proj2 (proj1 (call_returns_iff_answer_or_chunk START_FRI []
                           [[]; []] sample_open c eq_refl H1))).
    split; reflexivity.
  - apply (proj2 (proj2 (call_returns_iff_answer_or_chunk START_FRI []
                           [[]; [UNKNOWN]] sample_open c eq_refl H2))).
    right. vm_compute. discriminate.
Defined.

Lemma last_chunk_decides_witness :
  let c := mkTCPConnection "10.0.0.1" 30200 [] false in
  let before := [[REJECTED; START_FRI]] in
  let data := [ACCEPTED; START_FRI; SUCCESS] in
  case_labels_distinct
  /\ tcp_connection_ sample_open = Some c
  /\ Forall (fun data => ~ short_outcome data) before
  /\ ~ short_outcome data
  /\ data <> []
  /\ Forall (fun data : list byte => data = []) [[]]
  /\ exists b s',
       sendCommandAndWait_data START_FRI [] (before ++ data :: [[]])
         sample_open = Done (b, s')
       /\ (b = true <->
            exists rest, data = ACCEPTED :: START_FRI :: SUCCESS :: rest).
Proof.
  intros c before data.
  assert (Hd : case_labels_distinct) by sample_distinct.
  assert (H1 : Forall (fun data => ~ short_outcome data) before).
  { repeat constructor; sample_not_short. }
  assert (H2 : ~ short_outcome data) by sample_not_short.
  assert (H3 : data <> []) by discriminate.
  assert (H4 : Forall (fun data : list byte => data = []) [[]]).
  { repeat constructor. }
  split; [exact Hd|]. split; [reflexivity|]. split; [exact H1|].
  split; [exact H2|]. split; [exact H3|]. split; [exact H4|].
  exact (last_chunk_decides START_FRI [] before data [[]] sample_open c
           Hd eq_refl H1 H2 H3 H4).
Defined.

Lemma no_handler_thread_during_call_witness :
  let delivered := [[ERROR_CONTROL_ENDED]; [ERROR_FRI_ENDED]] in
  exists s',
    sendCommandAndWait_data START_FRI [] delivered sample_open
    = Done (false, s')
    /\ detached s' = detached sample_open
    /\ destroyed s' = destroyed sample_open
    /\ opened s' = opened sample_open
    /\ isConnected s' = true.
Proof.
  intros delivered.
  assert (Hs : { s' | sendCommandAndWait_data START_FRI [] delivered
                        sample_open = Done (false, s') }).
  { eexists. vm_compute; reflexivity. }
  destruct Hs as [s' Hs]. exists s'. split; [exact Hs|].
  exact (no_handler_thread_during_call START_FRI [] delivered sample_open s'
           (or_introl (ex_intro _ false Hs))).
Defined.

Lemma earlier_chunk_answers_next_call_witness :
  let c := mkTCPConnection "10.0.0.1" 30200 [] false in
  let data := [ACCEPTED; START_FRI; SUCCESS] in
  case_labels_distinct
  /\ tcp_connection_ sample_open = Some c
  /\ data <> []
  /\ data !! 0 <> Some ERROR_CONTROL_ENDED
  /\ data !! 0 <> Some ERROR_FRI_ENDED
  /\ exists s1,
       handleReceivedTCPData data sample_open = Done s1
       /\ exists b s',
            sendCommandAndWait_data START_FRI [] [] s1 = Done (b, s')
            /\ (b = true <->
                 exists rest, data = ACCEPTED :: START_FRI :: SUCCESS :: rest).
Proof.
  intros c data.
  assert (Hd : case_labels_distinct) by sample_distinct.
  assert (H1 : data <> []) by discriminate.
  assert (H2 : data !! 0 <> Some ERROR_CONTROL_ENDED) by discriminate.
  assert (H3 : data !! 0 <> Some ERROR_FRI_ENDED) by discriminate.
  assert (Hs : { s1 | handleReceivedTCPData data sample_open = Done s1 }).
  { eexists. vm_compute; reflexivity. }
  destruct Hs as [s1 Hs].
  split; [exact Hd|]. split; [reflexivity|]. split; [exact H1|].
  split; [exact H2|]. split; [exact H3|].
  exists s1. split; [exact Hs|].
  exact (earlier_chunk_answers_next_call START_FRI [] data sample_open s1 c
           Hd eq_refl H1 H2 H3 Hs).
Defined.

Lemma call_null_transport_iff_witness :
  tcp_connection_ FRIConnection_new = None
  /\ sendCommandAndWait_data START_FRI [] [] FRIConnection_new
     = Undefined NullTransport.
Proof.
  split; [reflexivity|].
  exact (proj2 (proj1 (call_null_transport_iff START_FRI [] []
                         FRIConnection_new)) eq_refl).
Defined.

Lemma commands_on_the_wire_witness :
  let delivered := [[ACCEPTED; SET_COMMAND_MODE; SUCCESS]] in
  exists s',
    setClientCommandMode x02 delivered sample_open = Done (true, s')
    /\ transmitted s' = transmitted sample_open ++ [[SET_COMMAND_MODE; x02]].
Proof.
  intros delivered.
  assert (Hs : { s' | setClientCommandMode x02 delivered sample_open
                      = Done (true, s') }).
  { eexists. vm_compute; reflexivity. }
  destruct Hs as [s' Hs]. exists s'. split; [exact Hs|].
  destruct (commands_on_the_wire START_FRI [] x02 delivered sample_open)
    as (_ & _ & _ & _ & _ & _ & _ & T).
  exact (T s' (or_introl (ex_intro _ true Hs))).
Defined.

Lemma connect_false_results_witness :
  let old := mkTCPConnection "10.0.0.1" 30200 [] false in
  let delivered := [[REJECTED; CONNECT]] in
  tcp_connection_ sample_open = Some old
  /\ (exists s',
        connect "10.0.0.2" 30300 false delivered sample_open
        = Done (false, s')
        /\ isConnected s' = false
        /\ destroyed s' = destroyed sample_open ++ [old]
        /\ transmitted s' = transmitted sample_open)
  /\ exists w,
       wakes_in [CONNECT] delivered (reopened "10.0.0.2" 30300 sample_open) w
       /\ ~ accepted_for CONNECT w
       /\ exists s',
            connect "10.0.0.2" 30300 true delivered sample_open
            = Done (false, s')
            /\ isConnected s' = true
            /\ tcp_connection_ s'
               = Some (mkTCPConnection "10.0.0.2" 30300 [[CONNECT]] false).
Proof.
  intros old delivered.
  destruct (connect_false_results "10.0.0.2" 30300 delivered sample_open)
    as [T1 T2].
  split; [reflexivity|]. split; [exact (T1 old eq_refl)|].
  assert (Hw : { w | wakes_in [CONNECT] delivered
                       (reopened "10.0.0.2" 30300 sample_open) w
                     /\ ~ accepted_for CONNECT w }).
  { eexists. split.
    - eexists. split; [reflexivity|].
      split; [vm_compute; reflexivity|reflexivity].
    - intros (Hst & _). vm_compute in Hst. discriminate Hst. }
  destruct Hw as [w [Hw Hn]]. exists w.
  split; [exact Hw|]. split; [exact Hn|]. exact (T2 w Hw Hn).
Defined.

Lemma destructor_outcomes_witness :
  let c := mkTCPConnection "10.0.0.1" 30200 [] false in
  let delivered := [[REJECTED; DISCONNECT]] in
  tcp_connection_ sample_open = Some c
  /\ exists w,
       wakes_in [DISCONNECT] delivered sample_open w
       /\ ~ accepted_for DISCONNECT w
       /\ exists s',
            FRIConnection_delete delivered sample_open = Done s'
            /\ tcp_connection_ s' = None
            /\ destroyed s'
               = destroyed sample_open ++ [sendByte DISCONNECT c].
Proof.
  intros c delivered. split; [reflexivity|].
  assert (Hw : { w | wakes_in [DISCONNECT] delivered sample_open w
                     /\ ~ accepted_for DISCONNECT w }).
  { eexists. split.
    - eexists. split; [reflexivity|].
      split; [vm_compute; reflexivity|reflexivity].
    - intros (Hst & _). vm_compute in Hst. discriminate Hst. }
  destruct Hw as [w [Hw Hn]]. exists w.
  split; [exact Hw|]. split; [exact Hn|].
  destruct (proj1 (proj2 (destructor_outcomes delivered sample_open))
              c w eq_refl Hw) as (s' & Hs & Ht & _ & Hno).
  exists s'. split; [exact Hs|]. split; [exact Ht|exact (Hno Hn)].
Defined.

Lemma joint_impedance_payload_witness :
  let encode := fun value : Z => (sample_serializeNext value []).2 in
  (forall value serialized,
     (sample_serializeNext value serialized).2 = serialized ++ encode value)
  /\ (setJointImpedanceControlMode_serialized Z x02 [xac; xed]
        sample_serializeNext [1000; 500]%Z [7]%Z).2
     = [x02; xac; xed; x00; x00; x00; xe8; x00; x00; x00; xf4;
        x00; x00; x00; x07]
  /\ writes
       (setJointImpedanceControlMode Z x02 [xac; xed] sample_serializeNext
          [1000; 500]%Z [7]%Z [] sample_open)
       sample_open
       [SET_CONTROL_MODE; x02; xac; xed; x00; x00; x00; xe8;
        x00; x00; x00; xf4; x00; x00; x00; x07].
Proof.
  intros encode.
  assert (Happ : forall value serialized,
            (sample_serializeNext value serialized).2
            = serialized ++ encode value) by reflexivity.
  split; [exact Happ|].
  exact (joint_impedance_payload Z x02 [xac; xed] sample_serializeNext
           encode [1000; 500]%Z [7]%Z [] sample_open Happ).
Defined.

Lemma fri_config_payload_witness :
  let encode := fun value : Z => (sample_serializeNext value []).2 in
  (forall value serialized,
     (sample_serializeNext value serialized).2 = serialized ++ encode value)
  /\ (setFRIConfig_serialized [xac; xed] sample_serializeNext 30200 10 1).2
     = [xac; xed; x00; x00; x00; xf8; x00; x00; x00; x0a; x00; x00; x00; x01]
  /\ writes
       (setFRIConfig [xac; xed] sample_serializeNext 30200 10 1 []
          sample_open)
       sample_open
       [SET_FRI_CONFIG; xac; xed; x00; x00; x00; xf8; x00; x00; x00; x0a;
        x00; x00; x00; x01].
Proof.
  intros encode.
  assert (Happ : forall value serialized,
            (sample_serializeNext value serialized).2
            = serialized ++ encode value) by reflexivity.
  split; [exact Happ|].
  exact (fri_config_payload [xac; xed] sample_serializeNext encode
           30200 10 1 [] sample_open Happ).
Defined.

Lemma answer_used_once_witness :
  let delivered := [[ACCEPTED; START_FRI; SUCCESS]] in
  exists s',
    sendCommandAndWait_data START_FRI [] delivered sample_open
    = Done (true, s')
    /\ Forall (fun data : list byte => data = []) [[]]
    /\ exists w,
         sendCommandAndWait_data END_FRI [] [[]] s' = Blocked w
         /\ transmitted w
            = transmitted sample_open ++ [[START_FRI]; [END_FRI]].
Proof.
  intros delivered.
  assert (Hs : { s' | sendCommandAndWait_data START_FRI [] delivered
                        sample_open = Done (true, s') }).
  { eexists. vm_compute; reflexivity. }
  destruct Hs as [s' Hs].
  assert (Hl : Forall (fun data : list byte => data = []) [[]]).
  { repeat constructor. }
  exists s'. split; [exact Hs|]. split; [exact Hl|].
  exact (answer_used_once START_FRI [] delivered END_FRI [] [[]] sample_open
           true s' Hs Hl).
Defined.
